(** * Preactivation ResNet (v2) graph assembly: models/resnet_v2.py

    A shallow embedding of the graph-construction code of
    [models/resnet_v2.py].  The Python functions build a symbolic
    TensorFlow graph: every layer call returns a graph node, registers it in
    a collection of named activations and may raise [ValueError] while the
    graph is assembled.  Tensors are therefore graph expressions with a
    static shape, and the code runs in a monad that threads the collection
    and stops at the first exception, keeping the collection as it was when
    the exception was raised. *)

From Stdlib Require Import ZArith QArith List String Bool Lia.
Import ListNotations.
Open Scope string_scope.
Open Scope Z_scope.

(** ** Python values and control *)

(** A Python number as the stride bookkeeping meets it: [output_stride] is
    an [int] at the interface and becomes a [float] after [output_stride /= 4]
    (the module imports [division] from [__future__]).  A float carries the
    rational value of the double it is, and [==] between an int and a float
    compares the numeric values. *)
Inductive pynum : Type :=
| PyInt (z : Z)
| PyFloat (q : Q).

Definition num_value (n : pynum) : Q :=
  match n with
  | PyInt z => inject_Z z
  | PyFloat q => q
  end.

Definition num_eqb (a b : pynum) : bool := Qeq_bool (num_value a) (num_value b).

(** The integer nearest to [z] among those with at most 53 significant
    bits, ties going to the even significand: the rounding of an int to the
    significand of a double. *)
Definition round53 (z : Z) : Z :=
  let a := Z.abs z in
  let e := Z.log2 a - 52 in
  if e <=? 0 then z
  else
    let q := a / 2 ^ e in
    let r := a mod 2 ^ e in
    let q' := if (2 ^ e <? 2 * r) || ((2 * r =? 2 ^ e) && Z.odd q) then q + 1 else q in
    Z.sgn z * (q' * 2 ^ e).

(** [x / 4] under true division: the double nearest to the quotient.
    Dividing by 4 only moves the exponent, so the significand is that of
    [x] rounded. *)
Definition truediv4 (z : Z) : pynum := PyFloat (inject_Z (round53 z) / 4)%Q.

(** The quotient [x / 4] is beyond the range of a double (its rounding
    reaches 2^1024): Python raises OverflowError instead of returning. *)
Definition truediv4_overflows (z : Z) : bool := 2 ^ 1026 <=? Z.abs (round53 z).

Inductive exn : Type :=
| ValueError (msg : string)
| OverflowError (msg : string).

Inductive result (A : Type) : Type :=
| Ok (a : A)
| Raise (e : exn).
Arguments Ok {A} a.
Arguments Raise {A} e.

(** ** Graph nodes *)

Inductive activation_fn : Type := relu | prelu.

Inductive initializer : Type := he_normal (scale : Z).

(** The keyword arguments a layer call receives ([**kwargs]).  [None] stands
    for a keyword that is absent or passed as [None]. *)
Record kwargs : Type := mk_kwargs {
  kw_is_training : option bool;
  kw_reuse : option bool;
  kw_batch_norm : option bool;
  kw_activation : option activation_fn;
  kw_w_init : option initializer;
  kw_untie_biases : option bool;
  kw_padding : option string
}.

(** A tensor is a node of the graph under construction: the operation that
    produces it, applied to its input tensors, together with the static
    shape that is inferred when the node is created ([get_shape] reads it
    back). *)
Inductive tensor : Type :=
| Tensor (static_shape : list Z) (op : operation)
with operation : Type :=
| Placeholder
| BatchNorm (x : tensor) (activation : option activation_fn) (name : string)
    (is_training : option bool) (reuse : option bool)
| Conv2d (x : tensor) (n_output_channels : Z) (filter_size stride : Z * Z)
    (name : string) (kw : kwargs)
| Conv2dSame (x : tensor) (num_outputs kernel_size stride rate : Z)
    (name : string) (kw : kwargs)
| Subsample (x : tensor) (factor : Z) (name : string)
| MaxPool (x : tensor) (stride : Z * Z) (name : string) (kw : kwargs)
| ReduceMean (x : tensor) (axes : list Z) (name : string) (keep_dims : bool)
| Softmax (x : tensor) (name : string) (kw : kwargs)
| Add (a b : tensor).

Definition get_shape (t : tensor) : list Z :=
  match t with Tensor sh _ => sh end.

Definition op_of (t : tensor) : operation :=
  match t with Tensor _ op => op end.

Definition rank (t : tensor) : nat := List.length (get_shape t).

(** The collection of named activations that the layers fill while the graph
    is assembled, in insertion order. *)
Definition collection : Type := list (string * tensor).

(** What a call returns to its Python caller. *)
Inductive pyvalue : Type :=
| PyTensor (t : tensor)
| PyDict (d : collection)
| PyPair (fst_value snd_value : pyvalue).

(** ** The assembly monad: collection passing with exceptions *)

Definition M (A : Type) : Type := collection -> result A * collection.

Definition ret {A} (a : A) : M A := fun s => (Ok a, s).

Definition bind {A B} (m : M A) (f : A -> M B) : M B :=
  fun s =>
    match m s with
    | (Ok a, s') => f a s'
    | (Raise e, s') => (Raise e, s')
    end.

Definition raise {A} (e : exn) : M A := fun s => (Raise e, s).

Definition collect (name : string) (t : tensor) : M unit :=
  fun s => (Ok tt, (s ++ [(name, t)])%list).

Declare Scope assembly_scope.
Delimit Scope assembly_scope with asm.
Notation "x <- c1 ;; c2" := (bind c1 (fun x => c2))
  (at level 61, c1 at next level, right associativity) : assembly_scope.
Notation "' pat <- c1 ;; c2" := (bind c1 (fun x => match x with pat => c2 end))
  (at level 61, pat pattern, c1 at next level, right associativity) : assembly_scope.
Notation "c1 ;; c2" := (bind c1 (fun _ => c2))
  (at level 61, right associativity) : assembly_scope.
Open Scope assembly_scope.

(** ** Static shapes *)

(** Spatial extent after a window slides with stride [s] over an extent [d]:
    the docstring of [resnet_v2] gives the feature map size as
    [(height - 1) / output_stride + 1].  The formula is meant for positive
    strides; at a stride of 0 or below it yields a number no layer produces,
    and the layers of this model do not reject such strides. *)
Definition reduce_dim (d s : Z) : Z := (d - 1) / s + 1.

Definition broadcast_dim (a b : Z) : option Z :=
  if a =? b then Some a
  else if a =? 1 then Some b
  else if b =? 1 then Some a
  else None.

Fixpoint broadcast_shape (a b : list Z) : option (list Z) :=
  match a, b with
  | [], [] => Some []
  | x :: a', y :: b' =>
      match broadcast_dim x y, broadcast_shape a' b' with
      | Some d, Some r => Some (d :: r)
      | _, _ => None
      end
  | _, _ => None
  end.

(** Modelled from the spec: the layer primitives ([tefla.core.layers],
    [models.resnet_utils]) are not part of the source tree; the spec treats
    them as black boxes with documented tensor shapes.  A convolution or a
    pooling maps [batch, height, width, channels] to the spatial extents
    reduced by its stride and to its number of output channels (a pooling
    or a subsampling keeps the channels), the global mean over the spatial
    axes keeps them with extent one. *)
Definition conv_shape (input : list Z) (n_out : Z) (stride : Z * Z) : list Z :=
  match input with
  | [b; h; w; _] => [b; reduce_dim h (fst stride); reduce_dim w (snd stride); n_out]
  | _ => []
  end.

(** Modelled from the spec: a pooling or a subsampling ([max_pool],
    [resnet_utils.subsample], not part of the source tree) reduces the
    spatial extents by its stride and keeps the channels. *)
Definition pool_shape (input : list Z) (stride : Z * Z) : list Z :=
  match input with
  | [b; h; w; c] => [b; reduce_dim h (fst stride); reduce_dim w (snd stride); c]
  | _ => []
  end.

(** Modelled from the spec: the global mean reduction over the spatial axes
    with [keep_dims=True] keeps them with extent one. *)
Definition mean_shape (input : list Z) : list Z :=
  match input with
  | [b; _; _; c] => [b; 1; 1; c]
  | _ => []
  end.

(** ** Layer primitives *)

Module Layers.

(** Modelled from the spec: [tefla.core.layer_arg_ops] is not part of the
    source tree.  [common_layer_args(is_training, reuse)] is the dictionary
    of the keyword arguments shared by all layer calls. *)
Definition common_layer_args (is_training : bool) (reuse : option bool) : kwargs :=
  mk_kwargs (Some is_training) reuse None None None None None.

(** Modelled from the spec: [make_args] of
    [tefla.core.layer_arg_ops], not part of the source tree, extends the
    common arguments by the keywords it is given. *)
Definition make_args (batch_norm : option bool) (activation : option activation_fn)
    (w_init : option initializer) (untie_biases : option bool)
    (padding : option string) (common : kwargs) : kwargs :=
  mk_kwargs (kw_is_training common) (kw_reuse common) batch_norm activation
    w_init untie_biases padding.

(** Modelled from the spec: [end_points(is_training)] of
    [tefla.core.layer_arg_ops], not part of the source tree, hands out the
    mapping of stage name to activation that is populated incrementally
    during assembly.  The model hands out the registrations as they were
    made, in order and under the names the layers were given: variable
    scopes are not modelled, so that a name can occur more than once. *)
Definition end_points (is_training : bool) : M pyvalue :=
  fun s => (Ok (PyDict s), s).

(** Modelled from the spec: [tefla.core.layers] is not part of the source
    tree.  Each layer is an opaque graph node with the documented shape; the
    convolution and pooling layers take [batch, height, width, channels] and
    fail on any other rank.  The spec speaks of a mapping of stage name to
    activation populated during assembly without saying which calls feed
    it: in the model every layer call registers its output under the name
    it is given. *)
Definition require_rank4 (x : tensor) : M unit :=
  if Nat.eqb (rank x) 4 then ret tt
  else raise (ValueError "Shape must be rank 4").

(** Modelled from the spec: the stride of [conv2d] when the call gives
    none (the classification projection of [resnet_v2]). *)
Definition conv2d_default_stride : Z * Z := (1, 1).

(** Modelled from the spec: the stride of [max_pool] when the call gives
    none, as [resnet_v2] does; with the stride-2 convolution before it the
    root stem has "its own stride of 4". *)
Definition max_pool_default_stride : Z * Z := (2, 2).

(** Modelled from the spec: [conv2d(x, n_output_channels, is_training,
    reuse, filter_size, stride, batch_norm, activation, name, ...)] of
    [tefla.core.layers], the 2D convolution primitive. *)

Definition conv2d (x : tensor) (n_output_channels : Z) (filter_size stride : Z * Z)
    (name : string) (kw : kwargs) : M tensor :=
  require_rank4 x ;;
  let out := Tensor (conv_shape (get_shape x) n_output_channels stride)
               (Conv2d x n_output_channels filter_size stride name kw) in
  collect name out ;;
  ret out.

(** Modelled from the spec: [max_pool(x, name, **kwargs)] of
    [tefla.core.layers], the max pooling primitive. *)
Definition max_pool (x : tensor) (name : string) (kw : kwargs) : M tensor :=
  require_rank4 x ;;
  let out := Tensor (pool_shape (get_shape x) max_pool_default_stride)
               (MaxPool x max_pool_default_stride name kw) in
  collect name out ;;
  ret out.

(** Modelled from the spec: [batch_norm_tf] of [tefla.core.layers], imported
    as [batch_norm], the batch normalization with optional activation.  The
    source passes the activation as [activation_fn=] in [bottleneck] and as
    [activation=] in [resnet_v2]. *)
Definition batch_norm (x : tensor) (activation : option activation_fn)
    (name : string) (is_training reuse : option bool) : M tensor :=
  let out := Tensor (get_shape x) (BatchNorm x activation name is_training reuse) in
  collect name out ;;
  ret out.

(** Modelled from the spec: [softmax(x, name, **kwargs)] of
    [tefla.core.layers], the normalized-probability head. *)
Definition softmax (x : tensor) (name : string) (kw : kwargs) : M tensor :=
  let out := Tensor (get_shape x) (Softmax x name kw) in
  collect name out ;;
  ret out.

(** Modelled from the spec: [util.last_dimension(shape, min_rank)] of
    [tefla.utils.util], not part of the source tree: the channel extent of a
    shape of at least the given rank. *)
Definition last_dimension (shape : list Z) (min_rank : nat) : M Z :=
  if Nat.ltb (List.length shape) min_rank
  then raise (ValueError "rank of shape must be at least min_rank")
  else ret (List.last shape 0).

(** [tf.reduce_mean(x, axes, name, keep_dims)], the global mean reduction
    of the numerical framework; it registers no activation. *)
Definition tf_reduce_mean (x : tensor) (axes : list Z) (name : string)
    (keep_dims : bool) : M tensor :=
  if Nat.ltb (rank x) 3 then raise (ValueError "Invalid reduction dimension")
  else ret (Tensor (mean_shape (get_shape x)) (ReduceMean x axes name keep_dims)).

(** [a + b] on tensors of the numerical framework: elementwise, with
    broadcasting of extents 1; shapes that do not broadcast are rejected when
    the node is created. *)
Definition tf_add (a b : tensor) : M tensor :=
  match broadcast_shape (get_shape a) (get_shape b) with
  | Some sh => ret (Tensor sh (Add a b))
  | None => raise (ValueError "Dimensions must be equal")
  end.

End Layers.

(** ** Block descriptors and the block stacking utility *)

Module resnet_utils.
Import Layers.

(** The signature of a residual unit:
    [unit_fn(inputs, depth, depth_bottleneck, stride, rate, name, **kwargs)]. *)
Definition unit_fn_t : Type :=
  tensor -> Z -> Z -> Z -> Z -> option string -> kwargs -> M tensor.

(** Modelled from the spec: [models/resnet_utils.py] is not part of the
    source tree.  A Block is a name, a unit-function reference, and an
    ordered sequence of per-unit argument tuples (output depth, bottleneck
    depth, stride). *)
Record Block : Type := mk_Block {
  scope : string;
  unit_fn : unit_fn_t;
  args : list (Z * Z * Z)
}.

(** Modelled from the spec: [resnet_utils.subsample(inputs, factor, name)]
    is the identity optionally subsampled by the stride, by simple striding
    and not by a convolution.  An opaque graph node. *)
Definition subsample (inputs : tensor) (factor : Z) (name : string) : M tensor :=
  require_rank4 inputs ;;
  let out := Tensor (pool_shape (get_shape inputs) (factor, factor))
               (Subsample inputs factor name) in
  collect name out ;;
  ret out.

(** Modelled from the spec: [resnet_utils.conv2d_same(inputs, num_outputs,
    kernel_size, stride, rate, name, **kwargs)] is the spatial convolution at
    a given stride and rate ([rate] is 1 where the call gives none).  An
    opaque graph node. *)
Definition conv2d_same (inputs : tensor) (num_outputs kernel_size stride rate : Z)
    (name : string) (kw : kwargs) : M tensor :=
  require_rank4 inputs ;;
  let out := Tensor (conv_shape (get_shape inputs) num_outputs (stride, stride))
               (Conv2dSame inputs num_outputs kernel_size stride rate name kw) in
  collect name out ;;
  ret out.

(** Modelled from the spec: "a target output_stride is set and
    [current_stride == target]". *)
Definition stride_reached (output_stride : option pynum) (current_stride : Z) : bool :=
  match output_stride with
  | Some target => num_eqb (PyInt current_stride) target
  | None => false
  end.

(** Modelled from the spec: the units of a block sequence in processing
    order, "in block order, then intra-block order", each with the unit
    function of its block. *)
Definition units_in_order (blocks : list Block) : list (unit_fn_t * (Z * Z * Z)) :=
  flat_map (fun block => map (fun a => (unit_fn block, a)) (args block)) blocks.

(** Modelled from the spec: the stacking algorithm of section 4.1.  Maintain
    [current_stride = 1] and [rate = 1].  For each unit, in block order then
    intra-block order: if a target output_stride is set and
    [current_stride == target], apply the unit with [stride=1] and multiply
    [rate] by the unit's nominal stride; otherwise apply the unit with its
    nominal stride and multiply [current_stride] by that stride. *)
Fixpoint stack_units (units : list (unit_fn_t * (Z * Z * Z)))
    (output_stride : option pynum) (kw : kwargs)
    (net : tensor) (current_stride rate : Z) : M (tensor * Z * Z) :=
  match units with
  | [] => ret (net, current_stride, rate)
  | (fn, (unit_depth, unit_depth_bottleneck, unit_stride)) :: rest =>
      if stride_reached output_stride current_stride then
        net' <- fn net unit_depth unit_depth_bottleneck 1 rate None kw ;;
        stack_units rest output_stride kw net' current_stride (rate * unit_stride)
      else
        net' <- fn net unit_depth unit_depth_bottleneck unit_stride 1 None kw ;;
        stack_units rest output_stride kw net' (current_stride * unit_stride) rate
  end.

(** Modelled from the spec: after processing all units, if a target was
    requested but [current_stride != target], fail with a configuration
    error. *)
Definition stack_blocks_dense (net : tensor) (blocks : list Block)
    (output_stride : option pynum) (kw : kwargs) : M tensor :=
  '(net', current_stride, _) <-
    stack_units (units_in_order blocks) output_stride kw net 1 1 ;;
  match output_stride with
  | Some target =>
      if negb (num_eqb (PyInt current_stride) target)
      then raise (ValueError "The target output_stride cannot be reached.")
      else ret net'
  | None => ret net'
  end.

End resnet_utils.

(** ** models/resnet_v2.py *)

Module ResnetV2.
Import Layers.
Import resnet_utils.

(** The keywords of a [conv2d] call that passes [is_training] and [reuse]
    positionally together with [batch_norm=None, activation=None]. *)
Definition plain_conv_args (is_training reuse : option bool) : kwargs :=
  mk_kwargs is_training reuse None None None None None.

(** [bottleneck(inputs, depth, depth_bottleneck, stride, rate=1, name=None,
    **kwargs)] *)
Definition bottleneck (inputs : tensor) (depth depth_bottleneck stride rate : Z)
    (name : option string) (kw : kwargs) : M tensor :=
  let is_training := kw_is_training kw in
  let reuse := kw_reuse kw in
  depth_in <- last_dimension (get_shape inputs) 4 ;;
  preact <- batch_norm inputs (Some relu) "preact" is_training reuse ;;
  shortcut <-
    (if depth =? depth_in
     then subsample inputs stride "shortcut"
     else conv2d preact depth (1, 1) (stride, stride) "shortcut"
            (plain_conv_args is_training reuse)) ;;
  residual <- conv2d preact depth_bottleneck (1, 1) (1, 1) "conv1" kw ;;
  residual <- conv2d_same residual depth_bottleneck 3 stride rate "conv2" kw ;;
  residual <- conv2d residual depth (1, 1) (1, 1) "conv3"
                (plain_conv_args is_training reuse) ;;
  tf_add shortcut residual.

(** The root block of [resnet_v2] (source lines 165-176): validation and
    rescaling of [output_stride] ([output_stride /= 4] is a true division of
    an int, which rounds to a double or raises OverflowError), then the stem
    convolution and pooling. *)
Definition root_block (inputs : tensor) (output_stride : option Z)
    (include_root_block : bool) (common_args pool_args : kwargs)
    : M (tensor * option pynum) :=
  if include_root_block then
    output_stride' <-
      match output_stride with
      | Some k =>
          if negb (k mod 4 =? 0)
          then raise (ValueError "The output_stride needs to be a multiple of 4.")
          else if truediv4_overflows k
          then raise (OverflowError "integer division result too large for a float")
          else ret (Some (truediv4 k))
      | None => ret None
      end ;;
    net <- conv2d_same inputs 64 7 2 1 "conv1" common_args ;;
    net <- max_pool net "pool1" pool_args ;;
    ret (net, output_stride')
  else ret (inputs, option_map PyInt output_stride).

(** The part of [resnet_v2] after the block stack (source lines 182-193). *)
Definition head (net : tensor) (is_training : bool) (reuse : option bool)
    (num_classes : option Z) (global_pool : bool)
    (logits_args pred_args : kwargs) : M pyvalue :=
  net <- batch_norm net (Some relu) "postnorm" (Some is_training) reuse ;;
  net <- (if global_pool then tf_reduce_mean net [1; 2] "pool5" true else ret net) ;;
  net <- match num_classes with
         | Some n => conv2d net n (1, 1) conv2d_default_stride "logits" logits_args
         | None => ret net
         end ;;
  _predictions <- match num_classes with
                  | Some _ => softmax net "predictions" pred_args
                  | None => ret net
                  end ;;
  end_points is_training.

(** The argument dictionaries [resnet_v2] builds before it assembles the
    graph (source lines 154-161). *)
Definition conv_args (common_args : kwargs) : kwargs :=
  make_args (Some true) (Some prelu) (Some (he_normal 1)) (Some false) None
    common_args.

Definition logits_args (common_args : kwargs) : kwargs :=
  make_args None None (Some (he_normal 1)) None None common_args.

Definition pred_args (common_args : kwargs) : kwargs :=
  make_args None (Some prelu) (Some (he_normal 1)) None None common_args.

Definition pool_args (common_args : kwargs) : kwargs :=
  make_args None None None None (Some "SAME") common_args.

(** [resnet_v2(inputs, is_training, reuse, blocks, num_classes=None,
    global_pool=True, output_stride=None, include_root_block=True,
    name=None)] *)
Definition resnet_v2 (inputs : tensor) (is_training : bool) (reuse : option bool)
    (blocks : list Block) (num_classes : option Z) (global_pool : bool)
    (output_stride : option Z) (include_root_block : bool)
    (name : option string) : M pyvalue :=
  let common_args := common_layer_args is_training reuse in
  '(net, output_stride') <-
    root_block inputs output_stride include_root_block common_args
      (pool_args common_args) ;;
  net <- stack_blocks_dense net blocks output_stride' (conv_args common_args) ;;
  head net is_training reuse num_classes global_pool
    (logits_args common_args) (pred_args common_args).

Definition blocks_50 : list Block :=
  [ mk_Block "block1" bottleneck (repeat (256, 64, 1) 2 ++ [(256, 64, 2)]);
    mk_Block "block2" bottleneck (repeat (512, 128, 1) 3 ++ [(512, 128, 2)]);
    mk_Block "block3" bottleneck (repeat (1024, 256, 1) 5 ++ [(1024, 256, 2)]);
    mk_Block "block4" bottleneck (repeat (2048, 512, 1) 3) ]%list.

Definition blocks_101 : list Block :=
  [ mk_Block "block1" bottleneck (repeat (256, 64, 1) 2 ++ [(256, 64, 2)]);
    mk_Block "block2" bottleneck (repeat (512, 128, 1) 3 ++ [(512, 128, 2)]);
    mk_Block "block3" bottleneck (repeat (1024, 256, 1) 22 ++ [(1024, 256, 2)]);
    mk_Block "block4" bottleneck (repeat (2048, 512, 1) 3) ]%list.

Definition blocks_152 : list Block :=
  [ mk_Block "block1" bottleneck (repeat (256, 64, 1) 2 ++ [(256, 64, 2)]);
    mk_Block "block2" bottleneck (repeat (512, 128, 1) 7 ++ [(512, 128, 2)]);
    mk_Block "block3" bottleneck (repeat (1024, 256, 1) 35 ++ [(1024, 256, 2)]);
    mk_Block "block4" bottleneck (repeat (2048, 512, 1) 3) ]%list.

Definition blocks_200 : list Block :=
  [ mk_Block "block1" bottleneck (repeat (256, 64, 1) 2 ++ [(256, 64, 2)]);
    mk_Block "block2" bottleneck (repeat (512, 128, 1) 23 ++ [(512, 128, 2)]);
    mk_Block "block3" bottleneck (repeat (1024, 256, 1) 35 ++ [(1024, 256, 2)]);
    mk_Block "block4" bottleneck (repeat (2048, 512, 1) 3) ]%list.

Definition resnet_v2_50 (inputs : tensor) (is_training : bool) (reuse : option bool)
    (num_classes : option Z) (global_pool : bool) (output_stride : option Z)
    : M pyvalue :=
  resnet_v2 inputs is_training reuse blocks_50 num_classes global_pool
    output_stride true (Some "resnet_v2_50").

Definition resnet_v2_101 (inputs : tensor) (is_training : bool) (reuse : option bool)
    (num_classes : option Z) (global_pool : bool) (output_stride : option Z)
    : M pyvalue :=
  resnet_v2 inputs is_training reuse blocks_101 num_classes global_pool
    output_stride true (Some "resnet_v2_101").

Definition resnet_v2_152 (inputs : tensor) (is_training : bool) (reuse : option bool)
    (num_classes : option Z) (global_pool : bool) (output_stride : option Z)
    : M pyvalue :=
  resnet_v2 inputs is_training reuse blocks_152 num_classes global_pool
    output_stride true (Some "resnet_v2_152").

Definition resnet_v2_200 (inputs : tensor) (is_training : bool) (reuse : option bool)
    (num_classes : option Z) (global_pool : bool) (output_stride : option Z)
    : M pyvalue :=
  resnet_v2 inputs is_training reuse blocks_200 num_classes global_pool
    output_stride true (Some "resnet_v2_200").

(** The four variant constructors. *)
Inductive variant : Type := V50 | V101 | V152 | V200.

Definition variant_blocks (v : variant) : list Block :=
  match v with
  | V50 => blocks_50
  | V101 => blocks_101
  | V152 => blocks_152
  | V200 => blocks_200
  end.

Definition variant_fn (v : variant) :
    tensor -> bool -> option bool -> option Z -> bool -> option Z -> M pyvalue :=
  match v with
  | V50 => resnet_v2_50
  | V101 => resnet_v2_101
  | V152 => resnet_v2_152
  | V200 => resnet_v2_200
  end.

End ResnetV2.

Import Layers resnet_utils ResnetV2.

(** ** Vocabulary of the statements *)

(** The nodes a call of [bottleneck] creates, under the names of the local
    variables and layers of the source. *)
Definition preact_node (inputs : tensor) (kw : kwargs) : tensor :=
  Tensor (get_shape inputs)
    (BatchNorm inputs (Some relu) "preact" (kw_is_training kw) (kw_reuse kw)).

Definition shortcut_node (inputs : tensor) (depth stride : Z) (kw : kwargs) : tensor :=
  if depth =? List.last (get_shape inputs) 0
  then Tensor (pool_shape (get_shape inputs) (stride, stride))
         (Subsample inputs stride "shortcut")
  else Tensor (conv_shape (get_shape inputs) depth (stride, stride))
         (Conv2d (preact_node inputs kw) depth (1, 1) (stride, stride) "shortcut"
            (plain_conv_args (kw_is_training kw) (kw_reuse kw))).

Definition conv1_node (inputs : tensor) (depth_bottleneck : Z) (kw : kwargs) : tensor :=
  Tensor (conv_shape (get_shape inputs) depth_bottleneck (1, 1))
    (Conv2d (preact_node inputs kw) depth_bottleneck (1, 1) (1, 1) "conv1" kw).

Definition conv2_node (inputs : tensor) (depth_bottleneck stride rate : Z)
    (kw : kwargs) : tensor :=
  let conv1 := conv1_node inputs depth_bottleneck kw in
  Tensor (conv_shape (get_shape conv1) depth_bottleneck (stride, stride))
    (Conv2dSame conv1 depth_bottleneck 3 stride rate "conv2" kw).

Definition conv3_node (inputs : tensor) (depth depth_bottleneck stride rate : Z)
    (kw : kwargs) : tensor :=
  let conv2 := conv2_node inputs depth_bottleneck stride rate kw in
  Tensor (conv_shape (get_shape conv2) depth (1, 1))
    (Conv2d conv2 depth (1, 1) (1, 1) "conv3"
       (plain_conv_args (kw_is_training kw) (kw_reuse kw))).

(** The nominal strides of the units, in processing order. *)
Definition nominal_strides (blocks : list Block) : list Z :=
  map (fun u => snd (snd u)) (units_in_order blocks).

(** The cumulative products of a sequence of strides, started at [cs]: the
    values [current_stride] takes when every unit is applied with its
    nominal stride. *)
Fixpoint cumulative_strides (cs : Z) (strides : list Z) : list Z :=
  match strides with
  | [] => [cs]
  | st :: rest => cs :: cumulative_strides (cs * st) rest
  end.

(** The values of [current_stride] and [rate] after the stacking loop has
    run over units of the given nominal strides. *)
Fixpoint stride_walk (target : option pynum) (strides : list Z) (cs rate : Z)
    : Z * Z :=
  match strides with
  | [] => (cs, rate)
  | st :: rest =>
      if stride_reached target cs
      then stride_walk target rest cs (rate * st)
      else stride_walk target rest (cs * st) rate
  end.

(** The stride each unit is applied with by the stacking loop. *)
Fixpoint applied_strides (target : option pynum) (strides : list Z) (cs : Z)
    : list Z :=
  match strides with
  | [] => []
  | st :: rest =>
      if stride_reached target cs
      then 1 :: applied_strides target rest cs
      else st :: applied_strides target rest (cs * st)
  end.

(** The product of a list of strides. *)
Definition stride_product (strides : list Z) : Z := fold_left Z.mul strides 1.

(** The output depth of the last unit, [c] when there is no unit. *)
Definition last_depth (units : list (unit_fn_t * (Z * Z * Z))) (c : Z) : Z :=
  List.last (map (fun u => fst (fst (snd u))) units) c.

(** A target no cumulative stride of the block sequence is equal to. *)
Definition unreachable (target : pynum) (blocks : list Block) : Prop :=
  forall cs, In cs (cumulative_strides 1 (nominal_strides blocks)) ->
             num_eqb (PyInt cs) target = false.

(** An input image batch. *)
Definition image : tensor := Tensor [1; 224; 224; 3] Placeholder.

(** ** Vocabulary on the variants *)

(** The ratio of input to output resolution a call asks for: the
    output_stride, or the nominal stride 32 of the networks of the module
    when it is [None]. *)
Definition output_factor (output_stride : option Z) : Z :=
  match output_stride with
  | Some k => k
  | None => 32
  end.

(** The values of output_stride the variant constructors assemble a
    network for. *)
Definition accepted_output_strides : list (option Z) :=
  [None; Some 4; Some 8; Some 16; Some 32].

(** The two configuration errors of [resnet_v2]. *)
Definition not_multiple_of_4 : exn :=
  ValueError "The output_stride needs to be a multiple of 4.".

Definition stride_not_reached : exn :=
  ValueError "The target output_stride cannot be reached.".

(** The error of the true division [output_stride /= 4] on an int too large
    for a float. *)
Definition division_overflow : exn :=
  OverflowError "integer division result too large for a float".

(** * Properties *)

(** ** Arithmetic of spatial extents *)

Lemma reduce_dim_1 (d : Z) : reduce_dim d 1 = d.
Proof. unfold reduce_dim. rewrite Z.div_1_r. lia. Qed.

Lemma reduce_dim_mul (d a b : Z) :
  0 < a -> 0 < b -> reduce_dim (reduce_dim d a) b = reduce_dim d (a * b).
Proof.
  intros Ha Hb. unfold reduce_dim.
  replace ((d - 1) / a + 1 - 1) with ((d - 1) / a) by lia.
  rewrite Z.div_div by lia. reflexivity.
Qed.

Lemma broadcast_dim_same (a : Z) : broadcast_dim a a = Some a.
Proof. unfold broadcast_dim. now rewrite Z.eqb_refl. Qed.

Lemma broadcast_shape_same (sh : list Z) : broadcast_shape sh sh = Some sh.
Proof.
  induction sh as [|d sh IH]; simpl; [reflexivity|].
  now rewrite broadcast_dim_same, IH.
Qed.

(** ** True division by 4 *)

Lemma round53_small (z : Z) : Z.abs z < 2 ^ 53 -> round53 z = z.
Proof.
  intros H. unfold round53.
  destruct (Z.leb_spec (Z.log2 (Z.abs z) - 52) 0) as [_|E]; [reflexivity|].
  exfalso. assert (53 <= Z.log2 (Z.abs z)) by lia.
  assert (0 < Z.abs z) by (destruct (Z.abs z) eqn:A; simpl in *; lia).
  pose proof (Z.log2_spec (Z.abs z) ltac:(lia)) as [L _].
  assert (2 ^ 53 <= 2 ^ Z.log2 (Z.abs z)) by (apply Z.pow_le_mono_r; lia).
  lia.
Qed.


Lemma round53_large (z : Z) : 2 ^ 53 <= Z.abs z -> 2 ^ 53 <= Z.abs (round53 z).
Proof.
  intros H. unfold round53.
  destruct (Z.leb_spec (Z.log2 (Z.abs z) - 52) 0) as [_|E]; [exact H|].
  set (a := Z.abs z) in *. set (e := Z.log2 a - 52) in *.
  assert (P : 0 < a) by lia.
  pose proof (Z.log2_spec a P) as [Lo Hi].
  assert (Pw : 0 < 2 ^ e) by (apply Z.pow_pos_nonneg; lia).
  assert (Q : 2 ^ 52 <= a / 2 ^ e).
  { apply Z.div_le_lower_bound; [lia|].
    rewrite <- Z.pow_add_r by lia. replace (e + 52) with (Z.log2 a) by lia. exact Lo. }
  assert (S1 : Z.abs (Z.sgn z) = 1) by (subst a; destruct z; simpl in *; lia).
  assert (E2 : 2 <= 2 ^ e) by (change 2 with (2 ^ 1) at 1; apply Z.pow_le_mono_r; lia).
  destruct ((2 ^ e <? 2 * (a mod 2 ^ e)) || ((2 * (a mod 2 ^ e) =? 2 ^ e) && Z.odd (a / 2 ^ e)));
    rewrite Z.abs_mul, S1, Z.abs_eq by nia;
    change (2 ^ 53) with (2 ^ 52 * 2); nia.
Qed.


(** ** Running the layers *)

Lemma bind_ok {A B} (m : M A) (f : A -> M B) (s s' : collection) (a : A) :
  m s = (Ok a, s') -> bind m f s = f a s'.
Proof. intros H. unfold bind. now rewrite H. Qed.

Lemma last_dimension_ok (shape : list Z) (min_rank : nat) (s : collection) :
  (min_rank <= List.length shape)%nat ->
  last_dimension shape min_rank s = (Ok (List.last shape 0), s).
Proof.
  intros H. unfold last_dimension.
  destruct (Nat.ltb_spec (List.length shape) min_rank); [lia|reflexivity].
Qed.

Lemma batch_norm_ok x act name tr re s :
  batch_norm x act name tr re s =
    (let out := Tensor (get_shape x) (BatchNorm x act name tr re) in
     (Ok out, (s ++ [(name, out)])%list)).
Proof. reflexivity. Qed.


Lemma rank4_shape (x : tensor) :
  rank x = 4%nat -> exists b h w c, get_shape x = [b; h; w; c].
Proof.
  unfold rank. destruct (get_shape x) as [|b [|h [|w [|c [|e l]]]]]; simpl; try discriminate.
  intros _. now exists b, h, w, c.
Qed.

Lemma require_rank4_ok (x : tensor) (s : collection) :
  rank x = 4%nat -> require_rank4 x s = (Ok tt, s).
Proof. intros H. unfold require_rank4. now rewrite H. Qed.

Lemma conv2d_ok x n f st name kw s :
  rank x = 4%nat ->
  conv2d x n f st name kw s =
    (let out := Tensor (conv_shape (get_shape x) n st) (Conv2d x n f st name kw) in
     (Ok out, (s ++ [(name, out)])%list)).
Proof. intros H. unfold conv2d, bind. now rewrite require_rank4_ok. Qed.

Lemma conv2d_same_ok x n k st r name kw s :
  rank x = 4%nat ->
  conv2d_same x n k st r name kw s =
    (let out := Tensor (conv_shape (get_shape x) n (st, st))
                  (Conv2dSame x n k st r name kw) in
     (Ok out, (s ++ [(name, out)])%list)).
Proof. intros H. unfold conv2d_same, bind. now rewrite require_rank4_ok. Qed.

Lemma subsample_ok x f name s :
  rank x = 4%nat ->
  subsample x f name s =
    (let out := Tensor (pool_shape (get_shape x) (f, f)) (Subsample x f name) in
     (Ok out, (s ++ [(name, out)])%list)).
Proof. intros H. unfold subsample, bind. now rewrite require_rank4_ok. Qed.

Lemma max_pool_ok x name kw s :
  rank x = 4%nat ->
  max_pool x name kw s =
    (let out := Tensor (pool_shape (get_shape x) max_pool_default_stride)
                  (MaxPool x max_pool_default_stride name kw) in
     (Ok out, (s ++ [(name, out)])%list)).
Proof. intros H. unfold max_pool, bind. now rewrite require_rank4_ok. Qed.


(** ** The bottleneck unit, node by node *)

Section Bottleneck.

Variables (inputs : tensor) (depth depth_bottleneck stride rate : Z).
Variables (name : option string) (kw : kwargs).
Variables (b h w c : Z).
Hypothesis inputs_shape : get_shape inputs = [b; h; w; c].

Lemma shortcut_node_shape :
  get_shape (shortcut_node inputs depth stride kw) =
    [b; reduce_dim h stride; reduce_dim w stride; depth].
Proof.
  unfold shortcut_node. rewrite inputs_shape. simpl List.last.
  destruct (depth =? c) eqn:E; simpl; [|reflexivity].
  apply Z.eqb_eq in E. now subst.
Qed.

Lemma conv3_node_shape :
  get_shape (conv3_node inputs depth depth_bottleneck stride rate kw) =
    [b; reduce_dim h stride; reduce_dim w stride; depth].
Proof.
  unfold conv3_node, conv2_node, conv1_node. simpl. rewrite inputs_shape. simpl.
  now rewrite !reduce_dim_1.
Qed.

Lemma bottleneck_eval (s : collection) :
  bottleneck inputs depth depth_bottleneck stride rate name kw s =
    (Ok (Tensor [b; reduce_dim h stride; reduce_dim w stride; depth]
           (Add (shortcut_node inputs depth stride kw)
                (conv3_node inputs depth depth_bottleneck stride rate kw))),
     (s ++ [("preact", preact_node inputs kw);
            ("shortcut", shortcut_node inputs depth stride kw);
            ("conv1", conv1_node inputs depth_bottleneck kw);
            ("conv2", conv2_node inputs depth_bottleneck stride rate kw);
            ("conv3", conv3_node inputs depth depth_bottleneck stride rate kw)])%list).
Proof.
  assert (R : rank inputs = 4%nat) by (unfold rank; now rewrite inputs_shape).
  assert (Rp : rank (preact_node inputs kw) = 4%nat) by exact R.
  assert (R1 : rank (conv1_node inputs depth_bottleneck kw) = 4%nat)
    by (unfold rank, conv1_node; simpl; now rewrite inputs_shape).
  assert (R2 : rank (conv2_node inputs depth_bottleneck stride rate kw) = 4%nat)
    by (unfold rank, conv2_node, conv1_node; simpl; now rewrite inputs_shape).
  pose proof shortcut_node_shape as Hs. pose proof conv3_node_shape as H3.
  unfold bottleneck.
  assert (L : (4 <= List.length (get_shape inputs))%nat) by (rewrite inputs_shape; reflexivity).
  rewrite (bind_ok _ _ _ _ _ (last_dimension_ok _ 4 s L)).
  rewrite (bind_ok _ _ _ _ _ (batch_norm_ok _ _ _ _ _ _)).
  cbv zeta. fold (preact_node inputs kw).
  set (s1 := (s ++ [("preact", preact_node inputs kw)])%list).
  assert (E : (if depth =? List.last (get_shape inputs) 0
     then subsample inputs stride "shortcut"
     else conv2d (preact_node inputs kw) depth (1, 1) (stride, stride) "shortcut"
            (plain_conv_args (kw_is_training kw) (kw_reuse kw))) s1
     = (Ok (shortcut_node inputs depth stride kw),
        (s1 ++ [("shortcut", shortcut_node inputs depth stride kw)])%list)).
  { unfold shortcut_node. destruct (depth =? List.last (get_shape inputs) 0).
    - now rewrite subsample_ok.
    - now rewrite conv2d_ok. }
  rewrite (bind_ok _ _ _ _ _ E).
  rewrite (bind_ok _ _ _ _ _ (conv2d_ok _ _ _ _ _ _ _ Rp)).
  cbv zeta. change (get_shape (preact_node inputs kw)) with (get_shape inputs).
  fold (conv1_node inputs depth_bottleneck kw).
  rewrite (bind_ok _ _ _ _ _ (conv2d_same_ok _ _ _ _ _ _ _ _ R1)).
  cbv zeta. fold (conv2_node inputs depth_bottleneck stride rate kw).
  rewrite (bind_ok _ _ _ _ _ (conv2d_ok _ _ _ _ _ _ _ R2)).
  cbv zeta. fold (conv3_node inputs depth depth_bottleneck stride rate kw).
  unfold tf_add. rewrite Hs, H3, broadcast_shape_same.
  unfold ret, s1. now rewrite <- !app_assoc.
Qed.


End Bottleneck.

(** ** Claims on the bottleneck unit *)

(** C5: in the bottleneck unit the shortcut is the plain subsampling of the
    input exactly when the requested depth equals the input depth; otherwise
    it is the 1x1 convolution of the pre-activated input to the requested
    depth, at the unit's stride, with neither activation nor normalization. *)
Theorem bottleneck_shortcut
    (inputs : tensor) (depth depth_bottleneck stride rate : Z)
    (name : option string) (kw : kwargs) (s : collection) :
  rank inputs = 4%nat ->
  let depth_in := List.last (get_shape inputs) 0 in
  exists sh shortcut residual s',
    bottleneck inputs depth depth_bottleneck stride rate name kw s =
      (Ok (Tensor sh (Add shortcut residual)), s') /\
    (op_of shortcut = Subsample inputs stride "shortcut" <-> depth = depth_in) /\
    (depth <> depth_in ->
     exists preact conv_kw,
       op_of shortcut =
         Conv2d preact depth (1, 1) (stride, stride) "shortcut" conv_kw /\
       op_of preact =
         BatchNorm inputs (Some relu) "preact" (kw_is_training kw) (kw_reuse kw) /\
       kw_activation conv_kw = None /\ kw_batch_norm conv_kw = None).
Proof.
  intros R depth_in. destruct (rank4_shape _ R) as (b & h & w & c & Hsh).
  eexists _, _, _, _. split; [apply (bottleneck_eval _ _ _ _ _ _ _ _ _ _ _ Hsh)|].
  unfold shortcut_node. fold depth_in.
  destruct (depth =? depth_in) eqn:E.
  - apply Z.eqb_eq in E. split; [tauto|]. intros N. contradiction.
  - apply Z.eqb_neq in E. split.
    + split; [discriminate|contradiction].
    + intros _. eexists _, _. repeat split.
Qed.

Lemma bottleneck_shortcut_witness :
  exists sh shortcut residual s',
    bottleneck image 256 64 2 1 None (common_layer_args true None) [] =
      (Ok (Tensor sh (Add shortcut residual)), s') /\
    (op_of shortcut = Subsample image 2 "shortcut" <-> 256 = 3) /\
    (256 <> 3 ->
     exists preact conv_kw,
       op_of shortcut = Conv2d preact 256 (1, 1) (2, 2) "shortcut" conv_kw /\
       op_of preact = BatchNorm image (Some relu) "preact" (Some true) None /\
       kw_activation conv_kw = None /\ kw_batch_norm conv_kw = None).
Proof.
  apply (bottleneck_shortcut image 256 64 2 1 None (common_layer_args true None) []).
  reflexivity.
Defined.

(** C6: the residual path of the bottleneck unit is a chain of exactly three
    convolutions over the pre-activated input: 1x1 to the bottleneck depth at
    stride 1, 3x3 at the unit's stride and rate, 1x1 to the output depth with
    neither activation nor normalization; the unit returns the elementwise
    sum of shortcut and residual. *)
Theorem bottleneck_residual
    (inputs : tensor) (depth depth_bottleneck stride rate : Z)
    (name : option string) (kw : kwargs) (s : collection) :
  rank inputs = 4%nat ->
  exists sh shortcut residual conv2 conv1 preact conv3_kw s',
    bottleneck inputs depth depth_bottleneck stride rate name kw s =
      (Ok (Tensor sh (Add shortcut residual)), s') /\
    op_of residual = Conv2d conv2 depth (1, 1) (1, 1) "conv3" conv3_kw /\
    kw_activation conv3_kw = None /\ kw_batch_norm conv3_kw = None /\
    op_of conv2 = Conv2dSame conv1 depth_bottleneck 3 stride rate "conv2" kw /\
    op_of conv1 = Conv2d preact depth_bottleneck (1, 1) (1, 1) "conv1" kw /\
    op_of preact =
      BatchNorm inputs (Some relu) "preact" (kw_is_training kw) (kw_reuse kw) /\
    shortcut = shortcut_node inputs depth stride kw.
Proof.
  intros R. destruct (rank4_shape _ R) as (b & h & w & c & Hsh).
  eexists _, _, _, _, _, _, _, _.
  split; [apply (bottleneck_eval _ _ _ _ _ _ _ _ _ _ _ Hsh)|].
  repeat split.
Qed.

Lemma bottleneck_residual_witness :
  exists sh shortcut residual conv2 conv1 preact conv3_kw s',
    bottleneck image 256 64 2 1 None (common_layer_args true None) [] =
      (Ok (Tensor sh (Add shortcut residual)), s') /\
    op_of residual = Conv2d conv2 256 (1, 1) (1, 1) "conv3" conv3_kw /\
    kw_activation conv3_kw = None /\ kw_batch_norm conv3_kw = None /\
    op_of conv2 =
      Conv2dSame conv1 64 3 2 1 "conv2" (common_layer_args true None) /\
    op_of conv1 =
      Conv2d preact 64 (1, 1) (1, 1) "conv1" (common_layer_args true None) /\
    op_of preact = BatchNorm image (Some relu) "preact" (Some true) None /\
    shortcut = shortcut_node image 256 2 (common_layer_args true None).
Proof.
  apply (bottleneck_residual image 256 64 2 1 None (common_layer_args true None) []).
  reflexivity.
Defined.

Lemma bottleneck_needs_rank4
    (inputs : tensor) (depth depth_bottleneck stride rate : Z)
    (name : option string) (kw : kwargs) (s s' : collection) (out : tensor) :
  depth = List.last (get_shape inputs) 0 ->
  bottleneck inputs depth depth_bottleneck stride rate name kw s = (Ok out, s') ->
  rank inputs = 4%nat.
Proof.
  intros Hd. unfold bottleneck, bind, last_dimension.
  destruct (Nat.ltb_spec (List.length (get_shape inputs)) 4) as [Hlt|Hge].
  - discriminate.
  - unfold ret at 1. rewrite batch_norm_ok. cbv zeta.
    rewrite Hd, Z.eqb_refl. unfold subsample, bind, require_rank4.
    destruct (Nat.eqb_spec (rank inputs) 4) as [E|N]; [intros _; exact E|].
    discriminate.
Qed.

(** C9: called with the depth of its input and stride 1, the bottleneck
    unit returns a tensor of exactly the shape of its input. *)
Theorem bottleneck_identity_shape
    (inputs : tensor) (depth depth_bottleneck rate : Z)
    (name : option string) (kw : kwargs) (s : collection) :
  depth = List.last (get_shape inputs) 0 ->
  (rank inputs = 4%nat ->
   exists out s',
     bottleneck inputs depth depth_bottleneck 1 rate name kw s = (Ok out, s')) /\
  (forall out s',
     bottleneck inputs depth depth_bottleneck 1 rate name kw s = (Ok out, s') ->
     get_shape out = get_shape inputs).
Proof.
  intros Hd. split.
  - intros R. destruct (rank4_shape _ R) as (b & h & w & c & Hsh).
    eexists _, _. apply (bottleneck_eval _ _ _ _ _ _ _ _ _ _ _ Hsh).
  - intros out s' H.
    pose proof (bottleneck_needs_rank4 _ _ _ _ _ _ _ _ _ _ Hd H) as R.
    destruct (rank4_shape _ R) as (b & h & w & c & Hsh).
    rewrite (bottleneck_eval _ _ _ _ _ _ _ _ _ _ _ Hsh) in H.
    injection H as <- _. simpl. rewrite Hsh in *. simpl in Hd.
    now rewrite !reduce_dim_1, Hd.
Qed.

Lemma bottleneck_identity_shape_witness :
  let x := Tensor [1; 56; 56; 256] Placeholder in
  (rank x = 4%nat ->
   exists out s',
     bottleneck x 256 64 1 1 None (common_layer_args true None) [] = (Ok out, s')) /\
  (forall out s',
     bottleneck x 256 64 1 1 None (common_layer_args true None) [] = (Ok out, s') ->
     get_shape out = get_shape x).
Proof.
  apply (bottleneck_identity_shape (Tensor [1; 56; 56; 256] Placeholder)
           256 64 1 None (common_layer_args true None) []).
  reflexivity.
Defined.

(** ** The stacking loop *)

Arguments stride_reached : simpl never.

Lemma stride_reached_iff (t : pynum) (cs : Z) :
  stride_reached (Some t) cs = true <-> (inject_Z cs == num_value t)%Q.
Proof. unfold stride_reached, num_eqb, num_value. apply Qeq_bool_iff. Qed.

Lemma stack_units_app pre post t kw net cs rate s :
  stack_units (pre ++ post)%list t kw net cs rate s =
    match stack_units pre t kw net cs rate s with
    | (Ok (mid, cs', rate'), s1) => stack_units post t kw mid cs' rate' s1
    | (Raise e, s1) => (Raise e, s1)
    end.
Proof.
  revert net cs rate s.
  induction pre as [|[fn [[d db] st]] pre IH]; intros net cs rate s; simpl.
  - reflexivity.
  - destruct (stride_reached t cs); unfold bind;
      (destruct (fn net d db _ _ None kw s) as [[net'|e] s1]; [apply IH|reflexivity]).
Qed.

Lemma stack_units_walk units t kw net cs rate s net' cs' rate' s' :
  stack_units units t kw net cs rate s = (Ok (net', cs', rate'), s') ->
  stride_walk t (map (fun u => snd (snd u)) units) cs rate = (cs', rate').
Proof.
  revert net cs rate s.
  induction units as [|[fn [[d db] st]] units IH]; intros net cs rate s; simpl.
  - unfold ret. now intros [= _ -> -> _].
  - destruct (stride_reached t cs); unfold bind;
      (destruct (fn net d db _ _ None kw s) as [[mid|e] s1]; [apply IH|discriminate]).
Qed.

Lemma stride_walk_reached t strides cs rate :
  stride_reached t cs = true ->
  stride_walk t strides cs rate = (cs, fold_left Z.mul strides rate).
Proof.
  intros H. revert rate. induction strides as [|st strides IH]; intros rate; simpl.
  - reflexivity.
  - rewrite H. apply IH.
Qed.

Lemma stride_walk_none strides cs rate :
  stride_walk None strides cs rate = (fold_left Z.mul strides cs, rate).
Proof.
  revert cs. induction strides as [|st strides IH]; intros cs; simpl; [reflexivity|apply IH].
Qed.

Lemma stride_walk_ge1 t strides cs rate :
  Forall (fun st => 1 <= st) strides -> 1 <= cs ->
  1 <= fst (stride_walk t strides cs rate).
Proof.
  intros F. revert cs rate. induction F as [|st strides Hst F IH]; intros cs rate Hcs; simpl.
  - exact Hcs.
  - destruct (stride_reached t cs); apply IH; nia.
Qed.

Lemma stride_walk_above t strides cs rate :
  Forall (fun st => 1 <= st) strides -> 1 <= cs ->
  (num_value t < inject_Z cs)%Q ->
  (num_value t < inject_Z (fst (stride_walk (Some t) strides cs rate)))%Q.
Proof.
  intros F. revert cs rate. induction F as [|st strides Hst F IH]; intros cs rate Hcs Hlt; simpl.
  - exact Hlt.
  - destruct (stride_reached (Some t) cs) eqn:E.
    + apply stride_reached_iff in E. rewrite E in Hlt. now apply Qlt_irrefl in Hlt.
    + apply IH; [nia|].
      eapply Qlt_le_trans; [exact Hlt|]. rewrite <- Zle_Qle. nia.
Qed.

Lemma fold_left_mul_scale strides a :
  fold_left Z.mul strides a = a * stride_product strides.
Proof.
  unfold stride_product. revert a.
  induction strides as [|st strides IH]; intros a; cbn [fold_left]; [lia|].
  rewrite IH, (IH (1 * st)). lia.
Qed.

Lemma cumulative_strides_last cs strides :
  In (fold_left Z.mul strides cs) (cumulative_strides cs strides).
Proof.
  revert cs. induction strides as [|st strides IH]; intros cs; simpl; auto.
Qed.

Lemma stack_units_unreached units t kw net cs rate s :
  (forall c, In c (cumulative_strides cs (map (fun u => snd (snd u)) units)) ->
             num_eqb (PyInt c) t = false) ->
  stack_units units (Some t) kw net cs rate s = stack_units units None kw net cs rate s.
Proof.
  revert net cs rate s.
  induction units as [|[fn [[d db] st]] units IH]; intros net cs rate s H; simpl.
  - reflexivity.
  - assert (E : stride_reached (Some t) cs = false)
      by (apply H; simpl; auto).
    rewrite E. unfold bind.
    destruct (fn net d db st 1 None kw s) as [[mid|e] s1]; [|reflexivity].
    apply IH. intros c Hc. apply H. simpl. now right.
Qed.

Lemma last_depth_cons fn d db st units c :
  last_depth ((fn, (d, db, st)) :: units) c = last_depth units d.
Proof.
  unfold last_depth. simpl map.
  generalize (map (fun u : unit_fn_t * (Z * Z * Z) => fst (fst (snd u))) units).
  intros l. revert d c. induction l as [|x l IH]; intros d c; [reflexivity|].
  change (List.last (d :: x :: l) c) with (List.last (x :: l) c).
  change (List.last (x :: l) d) with (List.last (x :: l) d).
  rewrite (IH x c), (IH x d). reflexivity.
Qed.

(** Blocks of bottleneck units over a [batch, height, width, channels]
    input: the loop runs to its end, every unit registers its five layers. *)
Lemma stack_units_bottleneck units :
  Forall (fun u => fst u = bottleneck) units ->
  forall t kw net b h w c cs rate s,
    get_shape net = [b; h; w; c] ->
    exists net' s',
      stack_units units t kw net cs rate s =
        (Ok (net', fst (stride_walk t (map (fun u => snd (snd u)) units) cs rate),
                   snd (stride_walk t (map (fun u => snd (snd u)) units) cs rate)), s') /\
      get_shape net' =
        [b;
         fold_left reduce_dim (applied_strides t (map (fun u => snd (snd u)) units) cs) h;
         fold_left reduce_dim (applied_strides t (map (fun u => snd (snd u)) units) cs) w;
         last_depth units c] /\
      List.length s' = (List.length s + 5 * List.length units)%nat.
Proof.
  induction 1 as [|[fn [[d db] st]] units Hfn F IH]; intros t kw net b h w c cs rate s Hsh.
  - exists net, s. simpl. unfold ret. repeat split; [exact Hsh|lia].
  - simpl in Hfn. subst fn. simpl stack_units. simpl map. simpl stride_walk. simpl applied_strides.
    destruct (stride_reached t cs).
    + unfold bind. rewrite (bottleneck_eval _ _ _ _ _ _ _ _ _ _ _ Hsh).
      match goal with |- context [stack_units units t kw ?n ?a ?r ?s0] =>
        destruct (IH t kw n b (reduce_dim h 1) (reduce_dim w 1) d a r s0 eq_refl)
          as (net' & s' & E & S & L) end.
      exists net', s'. rewrite E. repeat split.
      * rewrite S, last_depth_cons. reflexivity.
      * rewrite L, length_app. simpl. lia.
    + unfold bind. rewrite (bottleneck_eval _ _ _ _ _ _ _ _ _ _ _ Hsh).
      match goal with |- context [stack_units units t kw ?n ?a ?r ?s0] =>
        destruct (IH t kw n b (reduce_dim h st) (reduce_dim w st) d a r s0 eq_refl)
          as (net' & s' & E & S & L) end.
      exists net', s'. rewrite E. repeat split.
      * rewrite S, last_depth_cons. reflexivity.
      * rewrite L, length_app. simpl. lia.
Qed.

Lemma applied_strides_none strides cs : applied_strides None strides cs = strides.
Proof.
  revert cs. induction strides as [|st strides IH]; intros cs; simpl; [reflexivity|].
  now rewrite IH.
Qed.

Lemma units_in_order_bottleneck blocks :
  Forall (fun b => unit_fn b = bottleneck) blocks ->
  Forall (fun u => fst u = bottleneck) (units_in_order blocks).
Proof.
  induction 1 as [|blk blocks Hb F IH]; simpl; [constructor|].
  apply Forall_app. split; [|exact IH].
  apply Forall_forall. intros u Hu. apply in_map_iff in Hu as (a & <- & _). exact Hb.
Qed.

(** ** Claims on the stride budget *)

(** C4: with a target that no cumulative stride of the block sequence is
    equal to, the stacking runs over all units exactly as it does without a
    target and then fails with the configuration error; for blocks of
    bottleneck units on a rank-4 input the five layers of every unit have
    been registered when it fails. *)
Theorem unreachable_target_fails
    (net : tensor) (blocks : list Block) (t : pynum) (kw : kwargs) (s : collection) :
  unreachable t blocks ->
  match stack_units (units_in_order blocks) None kw net 1 1 s with
  | (Ok _, s') =>
      stack_blocks_dense net blocks (Some t) kw s =
        (Raise (ValueError "The target output_stride cannot be reached."), s')
  | (Raise e, s') => stack_blocks_dense net blocks (Some t) kw s = (Raise e, s')
  end /\
  (Forall (fun b => unit_fn b = bottleneck) blocks -> rank net = 4%nat ->
   exists s',
     stack_blocks_dense net blocks (Some t) kw s =
       (Raise (ValueError "The target output_stride cannot be reached."), s') /\
     List.length s' = (List.length s + 5 * List.length (units_in_order blocks))%nat).
Proof.
  intros U.
  assert (E : stack_units (units_in_order blocks) (Some t) kw net 1 1 s =
              stack_units (units_in_order blocks) None kw net 1 1 s)
    by (apply stack_units_unreached; exact U).
  assert (P : match stack_units (units_in_order blocks) None kw net 1 1 s with
              | (Ok _, s') =>
                  stack_blocks_dense net blocks (Some t) kw s =
                    (Raise (ValueError "The target output_stride cannot be reached."), s')
              | (Raise e, s') =>
                  stack_blocks_dense net blocks (Some t) kw s = (Raise e, s')
              end).
  { unfold stack_blocks_dense, bind. rewrite E.
    destruct (stack_units (units_in_order blocks) None kw net 1 1 s)
      as [[[[net' cs] rate]|e] s'] eqn:R; [|reflexivity].
    apply stack_units_walk in R. rewrite stride_walk_none in R.
    injection R as Hcs _.
    assert (N : num_eqb (PyInt cs) t = false).
    { apply U. rewrite <- Hcs. apply cumulative_strides_last. }
    now rewrite N. }
  split; [exact P|].
  intros F R. destruct (rank4_shape _ R) as (b & h & w & c & Hsh).
  destruct (stack_units_bottleneck _ (units_in_order_bottleneck _ F)
              None kw net b h w c 1 1 s Hsh) as (net' & s' & Run & _ & L).
  rewrite Run in P. exists s'. split; [exact P|exact L].
Qed.

Lemma unreachable_target_fails_witness :
  let blocks := [mk_Block "block1" bottleneck [(256, 64, 2); (256, 64, 2)]] in
  let kw := conv_args (common_layer_args true None) in
  match stack_units (units_in_order blocks) None kw image 1 1 [] with
  | (Ok _, s') =>
      stack_blocks_dense image blocks (Some (PyInt 3)) kw [] =
        (Raise (ValueError "The target output_stride cannot be reached."), s')
  | (Raise e, s') => stack_blocks_dense image blocks (Some (PyInt 3)) kw [] = (Raise e, s')
  end /\
  (Forall (fun b => unit_fn b = bottleneck) blocks -> rank image = 4%nat ->
   exists s',
     stack_blocks_dense image blocks (Some (PyInt 3)) kw [] =
       (Raise (ValueError "The target output_stride cannot be reached."), s') /\
     List.length s' = (List.length (@nil (string * tensor)) +
                       5 * List.length (units_in_order blocks))%nat).
Proof.
  apply (unreachable_target_fails image
           [mk_Block "block1" bottleneck [(256, 64, 2); (256, 64, 2)]]
           (PyInt 3) (conv_args (common_layer_args true None)) []).
  intros cs H. vm_compute in H.
  repeat (destruct H as [<-|H]; [reflexivity|]). contradiction.
Defined.

(** C3 as stated fails: ResNet-50 asked for output_stride 12 stacks its blocks
    against the target 12/4 = 3, and the cumulative stride after all units is
    8, above the target. *)
Lemma stride_budget_counterexample :
  let stem := Tensor [1; 56; 56; 64] Placeholder in
  match fst (stack_units (units_in_order blocks_50) (Some (truediv4 12))
               (conv_args (common_layer_args true None)) stem 1 1 []) with
  | Ok (_, current_stride, _) =>
      current_stride = 8 /\
      ~ (inject_Z current_stride <= num_value (truediv4 12))%Q
  | Raise _ => False
  end.
Proof.
  vm_compute. split; [reflexivity|]. intros H. apply H. reflexivity.
Qed.

(** C3, amended: over unit strides of at least 1, on a stacking that ends
    without the configuration error, the cumulative stride after every
    prefix of the units is at most the target; below the target the next unit
    is applied with its nominal stride and rate 1, which multiplies the
    cumulative stride; at the target the next unit is applied with stride 1,
    its nominal stride is multiplied into the rate, and the cumulative stride
    stays at the target over all remaining units. *)
Theorem stride_budget
    (net : tensor) (blocks : list Block) (t : pynum) (kw : kwargs)
    (s s_end : collection) (out : tensor)
    (pre post : list (unit_fn_t * (Z * Z * Z))) :
  Forall (fun st => 1 <= st) (nominal_strides blocks) ->
  stack_blocks_dense net blocks (Some t) kw s = (Ok out, s_end) ->
  units_in_order blocks = (pre ++ post)%list ->
  exists mid cs rate s_mid,
    stack_units pre (Some t) kw net 1 1 s = (Ok (mid, cs, rate), s_mid) /\
    (inject_Z cs <= num_value t)%Q /\
    ((inject_Z cs < num_value t)%Q ->
     rate = 1 /\
     forall fn d db st rest, post = (fn, (d, db, st)) :: rest ->
       stack_units post (Some t) kw mid cs rate s_mid =
         (net' <- fn mid d db st 1 None kw ;;
          stack_units rest (Some t) kw net' (cs * st) rate) s_mid) /\
    ((inject_Z cs == num_value t)%Q ->
     (forall fn d db st rest, post = (fn, (d, db, st)) :: rest ->
        stack_units post (Some t) kw mid cs rate s_mid =
          (net' <- fn mid d db 1 rate None kw ;;
           stack_units rest (Some t) kw net' cs (rate * st)) s_mid) /\
     (forall out' cs' rate' s',
        stack_units post (Some t) kw mid cs rate s_mid = (Ok (out', cs', rate'), s') ->
        cs' = cs /\
        rate' = rate * stride_product (map (fun u => snd (snd u)) post))).
Proof.
  intros F Run Split.
  unfold stack_blocks_dense, bind in Run. rewrite Split, stack_units_app in Run.
  destruct (stack_units pre (Some t) kw net 1 1 s)
    as [[[[mid cs] rate]|e] s_mid] eqn:Rpre; [|discriminate].
  exists mid, cs, rate, s_mid. split; [reflexivity|].
  pose proof (stack_units_walk _ _ _ _ _ _ _ _ _ _ _ Rpre) as Wpre.
  unfold nominal_strides in F. rewrite Split, map_app in F.
  apply Forall_app in F as [Fpre Fpost].
  assert (Hcs : 1 <= cs).
  { pose proof (stride_walk_ge1 (Some t) _ 1 1 Fpre ltac:(lia)) as G.
    now rewrite Wpre in G. }
  split; [|split].
  - destruct (stack_units post (Some t) kw mid cs rate s_mid)
      as [[[[net' cs_end] rate_end]|e] s1] eqn:Rpost; [|discriminate].
    destruct (negb (num_eqb (PyInt cs_end) t)) eqn:Chk; [discriminate|].
    apply negb_false_iff in Chk.
    change (stride_reached (Some t) cs_end = true) in Chk.
    apply stride_reached_iff in Chk.
    apply Qnot_lt_le. intros Above.
    pose proof (stride_walk_above t _ cs rate Fpost Hcs Above) as G.
    rewrite (stack_units_walk _ _ _ _ _ _ _ _ _ _ _ Rpost) in G. simpl in G.
    rewrite Chk in G. now apply Qlt_irrefl in G.
  - intros Below.
    assert (NR : stride_reached (Some t) cs = false).
    { destruct (stride_reached (Some t) cs) eqn:E; [|reflexivity].
      apply stride_reached_iff in E. rewrite E in Below.
      now apply Qlt_irrefl in Below. }
    split.
    + clear - Rpre NR. 
      assert (G : forall units net0 cs0 s0 mid' cs' rate' s',
                 stack_units units (Some t) kw net0 cs0 1 s0 = (Ok (mid', cs', rate'), s') ->
                 stride_reached (Some t) cs' = false -> rate' = 1).
      { induction units as [|[fn [[d db] st]] units IH]; intros net0 cs0 s0 mid' cs' rate' s'; simpl.
        - unfold ret. now intros [= _ _ <- _].
        - destruct (stride_reached (Some t) cs0) eqn:E0; unfold bind;
            (destruct (fn net0 d db _ _ None kw s0) as [[n1|e] s1]; [|discriminate]).
          + intros R N. apply stack_units_walk in R.
            rewrite (stride_walk_reached _ _ _ _ E0) in R.
            injection R as <- _. congruence.
          + apply IH. }
      eapply G; eassumption.
    + intros fn d db st rest ->. simpl. now rewrite NR.
  - intros At. apply stride_reached_iff in At. split.
    + intros fn d db st rest ->. simpl. now rewrite At.
    + intros out' cs' rate' s' Rpost. apply stack_units_walk in Rpost.
      rewrite (stride_walk_reached _ _ _ _ At) in Rpost.
      injection Rpost as <- <-. split; [reflexivity|apply fold_left_mul_scale].
Qed.

Lemma stride_budget_witness :
  let blocks := [mk_Block "block1" bottleneck [(256, 64, 2); (256, 64, 2)]] in
  let kw := conv_args (common_layer_args true None) in
  let post := [(bottleneck, (256, 64, 2))] in
  exists mid cs rate s_mid,
    stack_units [(bottleneck, (256, 64, 2))] (Some (PyInt 2)) kw image 1 1 [] =
      (Ok (mid, cs, rate), s_mid) /\
    (inject_Z cs <= num_value (PyInt 2))%Q /\
    ((inject_Z cs < num_value (PyInt 2))%Q ->
     rate = 1 /\
     forall fn d db st rest, post = (fn, (d, db, st)) :: rest ->
       stack_units post (Some (PyInt 2)) kw mid cs rate s_mid =
         (net' <- fn mid d db st 1 None kw ;;
          stack_units rest (Some (PyInt 2)) kw net' (cs * st) rate) s_mid) /\
    ((inject_Z cs == num_value (PyInt 2))%Q ->
     (forall fn d db st rest, post = (fn, (d, db, st)) :: rest ->
        stack_units post (Some (PyInt 2)) kw mid cs rate s_mid =
          (net' <- fn mid d db 1 rate None kw ;;
           stack_units rest (Some (PyInt 2)) kw net' cs (rate * st)) s_mid) /\
     (forall out' cs' rate' s',
        stack_units post (Some (PyInt 2)) kw mid cs rate s_mid =
          (Ok (out', cs', rate'), s') ->
        cs' = cs /\
        rate' = rate * stride_product (map (fun u => snd (snd u)) post))).
Proof.
  pose (blocks := [mk_Block "block1" bottleneck [(256, 64, 2); (256, 64, 2)]]).
  pose (kw := conv_args (common_layer_args true None)).
  pose (run := stack_blocks_dense image blocks (Some (PyInt 2)) kw []).
  apply (stride_budget image blocks (PyInt 2) kw [] (snd run)
           (match fst run with Ok o => o | Raise _ => image end)
           [(bottleneck, (256, 64, 2))] [(bottleneck, (256, 64, 2))]).
  - repeat constructor; discriminate.
  - vm_compute. reflexivity.
  - reflexivity.
Defined.

(** ** The network generator *)

Lemma bind_inv {A B} (m : M A) (f : A -> M B) (s s' : collection) (v : B) :
  bind m f s = (Ok v, s') ->
  exists a s1, m s = (Ok a, s1) /\ f a s1 = (Ok v, s').
Proof.
  unfold bind. destruct (m s) as [[a|e] s1]; [|discriminate].
  intros H. now exists a, s1.
Qed.

Lemma head_returns_end_points net tr re nc gp la pa s v s' :
  head net tr re nc gp la pa s = (Ok v, s') -> v = PyDict s'.
Proof.
  unfold head. intros H.
  repeat (apply bind_inv in H as (? & ? & _ & H)).
  unfold end_points in H. now injection H as <- <-.
Qed.

Lemma resnet_v2_returns_end_points
    inputs tr re blocks nc gp os irb name s v s' :
  resnet_v2 inputs tr re blocks nc gp os irb name s = (Ok v, s') -> v = PyDict s'.
Proof.
  unfold resnet_v2. intros H.
  apply bind_inv in H as ([net os'] & s1 & _ & H).
  apply bind_inv in H as (net' & s2 & _ & H).
  now apply head_returns_end_points in H.
Qed.

(** C1: [resnet_v2] hands back the value of [end_points(is_training)] alone.
    Every call that does not raise returns the mapping of named activations
    and never a pair of an output tensor and a mapping; so does the call of
    the module docstring, [resnet_v2_101(inputs, is_training, reuse, 5)] on a
    [batch, 224, 224, 3] input. *)
Theorem resnet_v2_returns_only_end_points :
  (forall inputs tr re blocks nc gp os irb name s,
     match resnet_v2 inputs tr re blocks nc gp os irb name s with
     | (Ok v, s') =>
         v = PyDict s' /\ forall net d, v <> PyPair (PyTensor net) (PyDict d)
     | (Raise _, _) => True
     end) /\
  match fst (resnet_v2_101 image true None (Some 5) true None []) with
  | Ok (PyDict d) => List.length d = 170%nat
  | _ => False
  end.
Proof.
  split.
  - intros. destruct (resnet_v2 _ _ _ _ _ _ _ _ _ _) as [[v|e] s'] eqn:E; [|exact I].
    apply resnet_v2_returns_end_points in E. subst v. split; [reflexivity|discriminate].
  - vm_compute. reflexivity.
Qed.

(** C2 as stated fails: without the root block an output_stride of 2, not a
    multiple of 4, is accepted and the network is assembled. *)
Lemma output_stride_validation_counterexample :
  2 mod 4 <> 0 /\
  match fst (resnet_v2 (Tensor [1; 56; 56; 64] Placeholder) true None
               [mk_Block "block1" bottleneck [(256, 64, 1); (256, 64, 2)]]
               None true (Some 2) false None []) with
  | Ok (PyDict d) => List.length d = 11%nat
  | _ => False
  end.
Proof. split; [discriminate|vm_compute; reflexivity]. Qed.

(** C2, amended: with the root block included, as in every variant
    constructor, an output_stride that is not a multiple of 4 makes the call
    raise ValueError with the collection of activations untouched: no layer
    has been applied to the input and no block has been processed. *)
Theorem output_stride_validation
    (inputs : tensor) (tr : bool) (re : option bool) (blocks : list Block)
    (nc : option Z) (gp : bool) (k : Z) (name : option string) (s : collection) :
  k mod 4 <> 0 ->
  resnet_v2 inputs tr re blocks nc gp (Some k) true name s =
    (Raise (ValueError "The output_stride needs to be a multiple of 4."), s) /\
  forall v, variant_fn v inputs tr re nc gp (Some k) s =
    (Raise (ValueError "The output_stride needs to be a multiple of 4."), s).
Proof.
  intros H.
  assert (G : forall bl nm, resnet_v2 inputs tr re bl nc gp (Some k) true nm s =
    (Raise (ValueError "The output_stride needs to be a multiple of 4."), s)).
  { intros bl nm. unfold resnet_v2, root_block, bind.
    apply Z.eqb_neq in H. now rewrite H. }
  split; [apply G|]. intros []; apply G.
Qed.

Lemma output_stride_validation_witness :
  resnet_v2 image true None blocks_50 (Some 5) true (Some 6) true None [] =
    (Raise (ValueError "The output_stride needs to be a multiple of 4."), []) /\
  forall v, variant_fn v image true None (Some 5) true (Some 6) [] =
    (Raise (ValueError "The output_stride needs to be a multiple of 4."), []).
Proof.
  apply (output_stride_validation image true None blocks_50 (Some 5) true 6 None []).
  discriminate.
Defined.

Lemma root_block_eval inputs b h w c os ca pa s :
  get_shape inputs = [b; h; w; c] ->
  (forall k, os = Some k -> k mod 4 = 0) ->
  (forall k, os = Some k -> truediv4_overflows k = false) ->
  let conv1 := Tensor [b; reduce_dim h 2; reduce_dim w 2; 64]
                 (Conv2dSame inputs 64 7 2 1 "conv1" ca) in
  let pool1 := Tensor [b; reduce_dim h 4; reduce_dim w 4; 64]
                 (MaxPool conv1 (2, 2) "pool1" pa) in
  root_block inputs os true ca pa s =
    (Ok (pool1, option_map truediv4 os),
     (s ++ [("conv1", conv1); ("pool1", pool1)])%list).
Proof.
  intros Hsh Hos Hov conv1 pool1.
  assert (R : rank inputs = 4%nat) by (unfold rank; now rewrite Hsh).
  unfold root_block.
  assert (V : match os with
              | Some k =>
                  if negb (k mod 4 =? 0)
                  then raise (ValueError "The output_stride needs to be a multiple of 4.")
                  else if truediv4_overflows k
                  then raise (OverflowError "integer division result too large for a float")
                  else ret (Some (truediv4 k))
              | None => ret None
              end s = (Ok (option_map truediv4 os), s)).
  { destruct os as [k|]; [|reflexivity].
    rewrite (Hos k eq_refl), (Hov k eq_refl). reflexivity. }
  rewrite (bind_ok _ _ _ _ _ V).
  rewrite (bind_ok _ _ _ _ _ (conv2d_same_ok _ _ _ _ _ _ _ _ R)). cbv zeta.
  rewrite Hsh. simpl conv_shape. fold conv1.
  assert (R1 : rank conv1 = 4%nat) by reflexivity.
  rewrite (bind_ok _ _ _ _ _ (max_pool_ok _ _ _ _ R1)). cbv zeta.
  simpl pool_shape. rewrite !reduce_dim_mul by lia. simpl Z.mul.
  unfold max_pool_default_stride. fold pool1.
  unfold ret. now rewrite <- app_assoc.
Qed.




(** ** The variants *)

Lemma stride_product_cons st strides :
  stride_product (st :: strides) = st * stride_product strides.
Proof.
  unfold stride_product at 1. cbn [fold_left]. rewrite fold_left_mul_scale. lia.
Qed.

Lemma stride_product_pos strides :
  Forall (fun st => 0 < st) strides -> 0 < stride_product strides.
Proof.
  induction 1 as [|st strides Hst F IH]; [reflexivity|].
  rewrite stride_product_cons. nia.
Qed.

Lemma fold_reduce_dim strides d :
  Forall (fun st => 0 < st) strides ->
  fold_left reduce_dim strides d = reduce_dim d (stride_product strides).
Proof.
  intros F. revert d. induction F as [|st strides Hst F IH]; intros d.
  - simpl. now rewrite reduce_dim_1.
  - cbn [fold_left]. rewrite IH, stride_product_cons.
    apply reduce_dim_mul; [exact Hst|now apply stride_product_pos].
Qed.

Lemma forallb_pos strides :
  forallb (Z.ltb 0) strides = true -> Forall (fun st => 0 < st) strides.
Proof.
  intros H. apply Forall_forall. intros st Hst.
  rewrite forallb_forall in H. now apply Z.ltb_lt, H.
Qed.

Lemma variant_units_bottleneck v :
  Forall (fun u => fst u = bottleneck) (units_in_order (variant_blocks v)).
Proof.
  apply units_in_order_bottleneck. destruct v; repeat constructor.
Qed.

(** The block stack of a variant without a target, on a rank-4 input. *)
Lemma variant_stack_eval v net b h w c kw s :
  get_shape net = [b; h; w; c] ->
  exists out s',
    stack_blocks_dense net (variant_blocks v) None kw s = (Ok out, s') /\
    get_shape out = [b; reduce_dim h 8; reduce_dim w 8; 2048].
Proof.
  intros Hsh.
  destruct (stack_units_bottleneck _ (variant_units_bottleneck v)
              None kw net b h w c 1 1 s Hsh) as (out & s' & Run & S & _).
  exists out, s'. split.
  - unfold stack_blocks_dense. rewrite (bind_ok _ _ _ _ _ Run). reflexivity.
  - rewrite S, applied_strides_none.
    assert (P : Forall (fun st => 0 < st)
                  (map (fun u => snd (snd u)) (units_in_order (variant_blocks v))))
      by (apply forallb_pos; destruct v; vm_compute; reflexivity).
    rewrite !(fold_reduce_dim _ _ P).
    assert (E : stride_product
                  (map (fun u => snd (snd u)) (units_in_order (variant_blocks v))) = 8)
      by (destruct v; vm_compute; reflexivity).
    assert (D : last_depth (units_in_order (variant_blocks v)) c = 2048)
      by (destruct v; vm_compute; reflexivity).
    now rewrite E, D.
Qed.

(** C7: every variant called without an output_stride reduces the spatial
    extents by 32 up to the tensor the head is applied to.  The root stem is
    a convolution of stride 2 followed by a max pooling of stride 2 (factor
    4); each of the first three blocks has stride 2 at its last unit and
    stride 1 elsewhere, the fourth block has stride 1 throughout (factor 8
    over the block stack). *)
Theorem variant_nominal_stride
    (v : variant) (inputs : tensor) (b h w c : Z) (tr : bool) (re : option bool)
    (nc : option Z) (gp : bool) (s : collection) :
  get_shape inputs = [b; h; w; c] ->
  let ca := common_layer_args tr re in
  (exists n1 n2 n3,
     map (fun blk => map snd (args blk)) (variant_blocks v) =
       [repeat 1 n1 ++ [2]; repeat 1 n2 ++ [2]; repeat 1 n3 ++ [2]; repeat 1 3]%list) /\
  stride_walk None (nominal_strides (variant_blocks v)) 1 1 = (8, 1) /\
  exists conv1 stem s1 out s2,
    root_block inputs None true ca (pool_args ca) s = (Ok (stem, None), s1) /\
    op_of conv1 = Conv2dSame inputs 64 7 2 1 "conv1" ca /\
    op_of stem = MaxPool conv1 (2, 2) "pool1" (pool_args ca) /\
    get_shape stem = [b; reduce_dim h 4; reduce_dim w 4; 64] /\
    stack_blocks_dense stem (variant_blocks v) None (conv_args ca) s1 = (Ok out, s2) /\
    get_shape out = [b; reduce_dim h 32; reduce_dim w 32; 2048] /\
    variant_fn v inputs tr re nc gp None s =
      head out tr re nc gp (logits_args ca) (pred_args ca) s2.
Proof.
  intros Hsh ca. split; [|split].
  - destruct v; [exists 2%nat, 3%nat, 5%nat | exists 2%nat, 3%nat, 22%nat
                 | exists 2%nat, 7%nat, 35%nat | exists 2%nat, 23%nat, 35%nat];
      reflexivity.
  - destruct v; vm_compute; reflexivity.
  - assert (Hos : forall k, @None Z = Some k -> k mod 4 = 0) by discriminate.
    assert (Hov : forall k, @None Z = Some k -> truediv4_overflows k = false)
      by discriminate.
    pose proof (root_block_eval inputs b h w c None ca (pool_args ca) s Hsh Hos Hov) as E.
    cbv zeta in E. simpl option_map in E.
    match type of E with _ = (Ok (?p, _), ?s1) =>
      destruct (variant_stack_eval v p b (reduce_dim h 4) (reduce_dim w 4) 64
                  (conv_args ca) s1 eq_refl) as (out & s2 & Run & S) end.
    exists (Tensor [b; reduce_dim h 2; reduce_dim w 2; 64]
              (Conv2dSame inputs 64 7 2 1 "conv1" ca)).
    eexists _, _, out, s2.
    split; [exact E|]. split; [reflexivity|]. split; [reflexivity|].
    split; [reflexivity|]. split; [exact Run|]. split.
    + rewrite S, !reduce_dim_mul by lia. reflexivity.
    + assert (G : forall nm, resnet_v2 inputs tr re (variant_blocks v) nc gp None true nm s =
                    head out tr re nc gp (logits_args ca) (pred_args ca) s2).
      { intros nm. unfold resnet_v2. fold ca. unfold bind at 1. rewrite E.
        unfold bind at 1. rewrite Run. reflexivity. }
      destruct v; apply G.
Qed.

Lemma variant_nominal_stride_witness :
  let ca := common_layer_args true None in
  (exists n1 n2 n3,
     map (fun blk => map snd (args blk)) (variant_blocks V50) =
       [repeat 1 n1 ++ [2]; repeat 1 n2 ++ [2]; repeat 1 n3 ++ [2]; repeat 1 3]%list) /\
  stride_walk None (nominal_strides (variant_blocks V50)) 1 1 = (8, 1) /\
  exists conv1 stem s1 out s2,
    root_block image None true ca (pool_args ca) [] = (Ok (stem, None), s1) /\
    op_of conv1 = Conv2dSame image 64 7 2 1 "conv1" ca /\
    op_of stem = MaxPool conv1 (2, 2) "pool1" (pool_args ca) /\
    get_shape stem = [1; reduce_dim 224 4; reduce_dim 224 4; 64] /\
    stack_blocks_dense stem (variant_blocks V50) None (conv_args ca) s1 = (Ok out, s2) /\
    get_shape out = [1; reduce_dim 224 32; reduce_dim 224 32; 2048] /\
    variant_fn V50 image true None None false None [] =
      head out true None None false (logits_args ca) (pred_args ca) s2.
Proof.
  apply (variant_nominal_stride V50 image 1 224 224 3 true None None false []).
  reflexivity.
Defined.

(** * Further properties of the module *)

(** ** The bottleneck unit *)

(** X1: on an input of rank below 4 the bottleneck unit raises ValueError at
    its first statement: no layer has been created and the collection of
    activations is as it was. *)
Theorem bottleneck_low_rank_raises
    (inputs : tensor) (depth depth_bottleneck stride rate : Z)
    (name : option string) (kw : kwargs) (s : collection) :
  (rank inputs < 4)%nat ->
  exists msg,
    bottleneck inputs depth depth_bottleneck stride rate name kw s =
      (Raise (ValueError msg), s).
Proof.
  intros R. unfold bottleneck, bind, last_dimension. unfold rank in R.
  destruct (Nat.ltb_spec (List.length (get_shape inputs)) 4) as [_|Hge]; [|lia].
  eexists. reflexivity.
Qed.

Lemma bottleneck_low_rank_raises_witness :
  exists msg,
    bottleneck (Tensor [32; 2048] Placeholder) 256 64 1 1 None
      (common_layer_args true None) [] = (Raise (ValueError msg), []).
Proof.
  apply (bottleneck_low_rank_raises (Tensor [32; 2048] Placeholder) 256 64 1 1 None
           (common_layer_args true None) []).
  unfold rank. simpl. lia.
Defined.

(** X2: for positive depths, stride and rate, on a [batch, height, width,
    channels] input of positive extents the bottleneck unit returns a tensor
    of the requested depth whose spatial extents are those of the input
    reduced by the stride, positive and no larger than the input's; shortcut
    and residual have this very shape, identity or projection, so that their
    sum does not broadcast. *)
Theorem bottleneck_output_shape
    (inputs : tensor) (b h w c depth depth_bottleneck stride rate : Z)
    (name : option string) (kw : kwargs) (s : collection) :
  get_shape inputs = [b; h; w; c] ->
  0 < b -> 0 < h -> 0 < w -> 0 < c ->
  0 < depth -> 0 < depth_bottleneck -> 0 < stride -> 0 < rate ->
  exists shortcut residual s',
    bottleneck inputs depth depth_bottleneck stride rate name kw s =
      (Ok (Tensor [b; reduce_dim h stride; reduce_dim w stride; depth]
             (Add shortcut residual)), s') /\
    get_shape shortcut = [b; reduce_dim h stride; reduce_dim w stride; depth] /\
    get_shape residual = [b; reduce_dim h stride; reduce_dim w stride; depth] /\
    0 < reduce_dim h stride <= h /\ 0 < reduce_dim w stride <= w.
Proof.
  intros Hsh Hb Hh Hw Hc Hd Hdb Hs Hr. eexists _, _, _.
  split; [apply (bottleneck_eval _ _ _ _ _ _ _ _ _ _ _ Hsh)|].
  split; [eapply shortcut_node_shape; exact Hsh|].
  split; [eapply conv3_node_shape; exact Hsh|].
  assert (G : forall d, 0 < d -> 0 < reduce_dim d stride <= d).
  { intros d Hd0. unfold reduce_dim.
    assert (0 <= (d - 1) / stride) by (apply Z.div_pos; lia).
    assert ((d - 1) / stride <= d - 1) by (apply Z.div_le_upper_bound; nia).
    lia. }
  split; apply G; assumption.
Qed.

Lemma bottleneck_output_shape_witness :
  exists shortcut residual s',
    bottleneck image 256 64 2 1 None (common_layer_args true None) [] =
      (Ok (Tensor [1; reduce_dim 224 2; reduce_dim 224 2; 256]
             (Add shortcut residual)), s') /\
    get_shape shortcut = [1; reduce_dim 224 2; reduce_dim 224 2; 256] /\
    get_shape residual = [1; reduce_dim 224 2; reduce_dim 224 2; 256] /\
    0 < reduce_dim 224 2 <= 224 /\ 0 < reduce_dim 224 2 <= 224.
Proof.
  apply (bottleneck_output_shape image 1 224 224 3 256 64 2 1 None
           (common_layer_args true None) []); [reflexivity|lia..].
Defined.

(** X4: two bottleneck units in a row, with positive strides, reduce the
    spatial extents by the product of their strides and end at the depth of
    the second; when the second unit keeps the depth of the first, its
    shortcut is the subsampling of the first unit's output, whatever the
    depth of the original input. *)
Theorem bottleneck_compose
    (inputs : tensor) (b h w c : Z)
    (depth1 bottleneck1 stride1 rate1 depth2 bottleneck2 stride2 rate2 : Z)
    (name1 name2 : option string) (kw : kwargs) (s : collection) :
  get_shape inputs = [b; h; w; c] ->
  0 < stride1 -> 0 < stride2 ->
  exists mid s1 out s2,
    bottleneck inputs depth1 bottleneck1 stride1 rate1 name1 kw s = (Ok mid, s1) /\
    bottleneck mid depth2 bottleneck2 stride2 rate2 name2 kw s1 = (Ok out, s2) /\
    get_shape out =
      [b; reduce_dim h (stride1 * stride2); reduce_dim w (stride1 * stride2); depth2] /\
    (depth2 = depth1 ->
     exists shortcut residual,
       op_of out = Add shortcut residual /\
       op_of shortcut = Subsample mid stride2 "shortcut").
Proof.
  intros Hsh H1 H2.
  pose proof (bottleneck_eval inputs depth1 bottleneck1 stride1 rate1 name1 kw
                b h w c Hsh s) as E1.
  match type of E1 with _ = (Ok ?m, ?s1) =>
    pose proof (bottleneck_eval m depth2 bottleneck2 stride2 rate2 name2 kw
                  b (reduce_dim h stride1) (reduce_dim w stride1) depth1 eq_refl s1) as E2
  end.
  eexists _, _, _, _. split; [exact E1|]. split; [exact E2|].
  split.
  - simpl. now rewrite !reduce_dim_mul.
  - intros ->. eexists _, _. split; [reflexivity|].
    unfold shortcut_node. simpl. now rewrite Z.eqb_refl.
Qed.

Lemma bottleneck_compose_witness :
  exists mid s1 out s2,
    bottleneck image 256 64 2 1 None (common_layer_args true None) [] = (Ok mid, s1) /\
    bottleneck mid 256 64 2 1 None (common_layer_args true None) s1 = (Ok out, s2) /\
    get_shape out = [1; reduce_dim 224 (2 * 2); reduce_dim 224 (2 * 2); 256] /\
    (256 = 256 ->
     exists shortcut residual,
       op_of out = Add shortcut residual /\
       op_of shortcut = Subsample mid 2 "shortcut").
Proof.
  apply (bottleneck_compose image 1 224 224 3 256 64 2 1 256 64 2 1 None None
           (common_layer_args true None) []); [reflexivity|lia|lia].
Defined.

(** ** The generator, stage by stage *)

Lemma head_eval net b h w c tr re nc (gp : bool) la pa s :
  get_shape net = [b; h; w; c] ->
  let postnorm := Tensor [b; h; w; c] (BatchNorm net (Some relu) "postnorm" (Some tr) re) in
  let pooled := if gp then Tensor [b; 1; 1; c] (ReduceMean postnorm [1; 2] "pool5" true)
                else postnorm in
  head net tr re nc gp la pa s =
    match nc with
    | Some n =>
        let logits := Tensor (conv_shape (get_shape pooled) n (1, 1))
                        (Conv2d pooled n (1, 1) (1, 1) "logits" la) in
        let predictions := Tensor (get_shape logits) (Softmax logits "predictions" pa) in
        let s' := (s ++ [("postnorm", postnorm); ("logits", logits);
                         ("predictions", predictions)])%list in
        (Ok (PyDict s'), s')
    | None =>
        let s' := (s ++ [("postnorm", postnorm)])%list in
        (Ok (PyDict s'), s')
    end.
Proof.
  intros Hsh postnorm pooled. unfold head.
  rewrite (bind_ok _ _ _ _ _ (batch_norm_ok _ _ _ _ _ _)). cbv zeta.
  rewrite Hsh. fold postnorm.
  assert (P : (if gp then tf_reduce_mean postnorm [1; 2] "pool5" true else ret postnorm)
                (s ++ [("postnorm", postnorm)])%list =
              (Ok pooled, (s ++ [("postnorm", postnorm)])%list)).
  { unfold pooled. destruct gp; reflexivity. }
  rewrite (bind_ok _ _ _ _ _ P).
  assert (Rp : rank pooled = 4%nat) by (unfold pooled; destruct gp; reflexivity).
  destruct nc as [n|].
  - rewrite (bind_ok _ _ _ _ _ (conv2d_ok _ _ _ _ _ _ _ Rp)). cbv zeta.
    unfold conv2d_default_stride.
    assert (Sm : forall x nm kw0 s0,
                   softmax x nm kw0 s0 =
                     (Ok (Tensor (get_shape x) (Softmax x nm kw0)),
                      (s0 ++ [(nm, Tensor (get_shape x) (Softmax x nm kw0))])%list))
      by reflexivity.
    rewrite (bind_ok _ _ _ _ _ (Sm _ _ _ _)).
    unfold end_points. now rewrite <- !app_assoc.
  - unfold bind, ret, end_points. reflexivity.
Qed.

Lemma resnet_v2_unfold inputs tr re blocks nc gp os irb name s :
  let ca := common_layer_args tr re in
  resnet_v2 inputs tr re blocks nc gp os irb name s =
    match root_block inputs os irb ca (pool_args ca) s with
    | (Ok (stem, t), s1) =>
        match stack_units (units_in_order blocks) t (conv_args ca) stem 1 1 s1 with
        | (Ok (out, cs, _), s2) =>
            if stride_reached t cs || match t with None => true | Some _ => false end
            then head out tr re nc gp (logits_args ca) (pred_args ca) s2
            else (Raise stride_not_reached, s2)
        | (Raise e, s2) => (Raise e, s2)
        end
    | (Raise e, s1) => (Raise e, s1)
    end.
Proof.
  intros ca. unfold resnet_v2. fold ca. unfold bind at 1.
  destruct (root_block inputs os irb ca (pool_args ca) s) as [[[stem t]|e] s1];
    [|reflexivity].
  unfold bind at 1. unfold stack_blocks_dense. unfold bind at 1.
  destruct (stack_units (units_in_order blocks) t (conv_args ca) stem 1 1 s1)
    as [[[[out cs] rate]|e] s2]; [|reflexivity].
  destruct t as [target|]; [|reflexivity].
  unfold stride_reached. rewrite orb_false_r.
  destruct (num_eqb (PyInt cs) target); reflexivity.
Qed.

(** A call of [resnet_v2] over blocks of bottleneck units and a rank-4
    input: either the root block rejects the output_stride, or its division
    by 4 overflows, or the stem, the stacking loop and the head run as
    follows. *)
Lemma resnet_v2_run inputs b h w c tr re blocks os (irb : bool) name s :
  Forall (fun blk => unit_fn blk = bottleneck) blocks ->
  get_shape inputs = [b; h; w; c] ->
  let ca := common_layer_args tr re in
  let t := if irb then option_map truediv4 os else option_map PyInt os in
  let h0 := if irb then reduce_dim h 4 else h in
  let w0 := if irb then reduce_dim w 4 else w in
  let c0 := if irb then 64 else c in
  (irb = true /\ exists k, os = Some k /\ k mod 4 <> 0 /\
   forall nc gp,
     resnet_v2 inputs tr re blocks nc gp os irb name s = (Raise not_multiple_of_4, s)) \/
  (irb = true /\ exists k, os = Some k /\ k mod 4 = 0 /\ truediv4_overflows k = true /\
   forall nc gp,
     resnet_v2 inputs tr re blocks nc gp os irb name s = (Raise division_overflow, s)) \/
  (exists stem s1 out cs rate s2,
     root_block inputs os irb ca (pool_args ca) s = (Ok (stem, t), s1) /\
     stack_units (units_in_order blocks) t (conv_args ca) stem 1 1 s1 =
       (Ok (out, cs, rate), s2) /\
     stride_walk t (nominal_strides blocks) 1 1 = (cs, rate) /\
     get_shape out =
       [b; fold_left reduce_dim (applied_strides t (nominal_strides blocks) 1) h0;
           fold_left reduce_dim (applied_strides t (nominal_strides blocks) 1) w0;
           last_depth (units_in_order blocks) c0] /\
     forall nc gp,
       resnet_v2 inputs tr re blocks nc gp os irb name s =
         if stride_reached t cs || match t with None => true | Some _ => false end
         then head out tr re nc gp (logits_args ca) (pred_args ca) s2
         else (Raise stride_not_reached, s2)).
Proof.
  intros F Hsh ca t h0 w0 c0.
  assert (Fu := units_in_order_bottleneck _ F).
  assert (Stack : forall stem s1,
            get_shape stem = [b; h0; w0; c0] ->
            root_block inputs os irb ca (pool_args ca) s = (Ok (stem, t), s1) ->
            exists stem' s1' out cs rate s2,
              root_block inputs os irb ca (pool_args ca) s = (Ok (stem', t), s1') /\
              stack_units (units_in_order blocks) t (conv_args ca) stem' 1 1 s1' =
                (Ok (out, cs, rate), s2) /\
              stride_walk t (nominal_strides blocks) 1 1 = (cs, rate) /\
              get_shape out =
                [b; fold_left reduce_dim (applied_strides t (nominal_strides blocks) 1) h0;
                    fold_left reduce_dim (applied_strides t (nominal_strides blocks) 1) w0;
                    last_depth (units_in_order blocks) c0] /\
              forall nc gp,
                resnet_v2 inputs tr re blocks nc gp os irb name s =
                  if stride_reached t cs || match t with None => true | Some _ => false end
                  then head out tr re nc gp (logits_args ca) (pred_args ca) s2
                  else (Raise stride_not_reached, s2)).
  { intros stem s1 Hstem Root.
    destruct (stack_units_bottleneck _ Fu t (conv_args ca) stem b h0 w0 c0 1 1 s1 Hstem)
      as (out & s2 & Run & S & _).
    eexists stem, s1, out, _, _, s2.
    split; [exact Root|]. split; [exact Run|].
    split; [unfold nominal_strides; apply surjective_pairing|].
    split; [exact S|].
    intros nc gp.
    pose proof (resnet_v2_unfold inputs tr re blocks nc gp os irb name s) as U.
    cbv zeta in U. fold ca in U. rewrite Root, Run in U. exact U. }
  destruct irb.
  - destruct os as [k|].
    + destruct (Z.eq_dec (k mod 4) 0) as [Hk|Hk].
      * destruct (truediv4_overflows k) eqn:Ov.
        -- right. left. split; [reflexivity|]. exists k. repeat split; try assumption.
           intros nc gp. unfold resnet_v2, root_block, bind.
           apply Z.eqb_eq in Hk. now rewrite Hk, Ov.
        -- right. right.
           assert (Hos : forall k', Some k = Some k' -> k' mod 4 = 0)
             by (now intros k' [= <-]).
           assert (Hov : forall k', Some k = Some k' -> truediv4_overflows k' = false)
             by (now intros k' [= <-]).
           pose proof (root_block_eval inputs b h w c (Some k) ca (pool_args ca) s
                         Hsh Hos Hov) as E.
           cbv zeta in E. eapply Stack; [|exact E]. reflexivity.
      * left. split; [reflexivity|]. exists k. split; [reflexivity|]. split; [exact Hk|].
        intros nc gp.
        unfold resnet_v2, root_block, bind. apply Z.eqb_neq in Hk. now rewrite Hk.
    + right. right.
      assert (Hos : forall k', @None Z = Some k' -> k' mod 4 = 0) by discriminate.
      assert (Hov : forall k', @None Z = Some k' -> truediv4_overflows k' = false)
        by discriminate.
      pose proof (root_block_eval inputs b h w c None ca (pool_args ca) s Hsh Hos Hov) as E.
      cbv zeta in E. eapply Stack; [|exact E]. reflexivity.
  - right. right. eapply (Stack inputs s); [exact Hsh|reflexivity].
Qed.

(** ** The generator over blocks of bottleneck units *)

(** X5: without a classification head the global pooling leaves no trace:
    over bottleneck blocks and a rank-4 input, [resnet_v2] with
    [num_classes=None] returns the same mapping and leaves the same collection
    with [global_pool=True] as with [global_pool=False]; the pooled tensor is
    computed and dropped. *)
Theorem global_pool_unobservable_without_head
    (inputs : tensor) (tr : bool) (re : option bool) (blocks : list Block)
    (os : option Z) (irb : bool) (name : option string) (s : collection) :
  Forall (fun blk => unit_fn blk = bottleneck) blocks ->
  rank inputs = 4%nat ->
  resnet_v2 inputs tr re blocks None true os irb name s =
  resnet_v2 inputs tr re blocks None false os irb name s.
Proof.
  intros F R. destruct (rank4_shape _ R) as (b & h & w & c & Hsh).
  destruct (resnet_v2_run inputs b h w c tr re blocks os irb name s F Hsh)
    as [(_ & k & _ & _ & E)|[(_ & k & _ & _ & _ & E)
       |(stem & s1 & out & cs & rate & s2 & _ & _ & _ & S & E)]].
  - now rewrite !E.
  - now rewrite !E.
  - rewrite !E. destruct (_ || _); [|reflexivity].
    rewrite !(head_eval _ _ _ _ _ _ _ _ _ _ _ _ S). reflexivity.
Qed.

Lemma global_pool_unobservable_without_head_witness :
  resnet_v2 image true None blocks_50 None true None true None [] =
  resnet_v2 image true None blocks_50 None false None true None [].
Proof.
  apply (global_pool_unobservable_without_head image true None blocks_50 None true None []).
  - repeat constructor.
  - reflexivity.
Defined.



(** ** The variants under an output_stride *)

Lemma num_eqb_truediv4 (c k : Z) :
  num_eqb (PyInt c) (truediv4 k) = (4 * c =? round53 k).
Proof.
  unfold num_eqb, truediv4, num_value.
  destruct (4 * c =? round53 k) eqn:E.
  - apply Z.eqb_eq in E. apply Qeq_bool_iff. unfold Qeq. simpl. lia.
  - apply Z.eqb_neq in E.
    destruct (Qeq_bool (inject_Z c) (inject_Z (round53 k) / 4)) eqn:Q; [|reflexivity].
    apply Qeq_bool_iff in Q. unfold Qeq in Q. simpl in Q. lia.
Qed.

Lemma round53_inv (z r : Z) : round53 z = r -> Z.abs r < 2 ^ 53 -> z = r.
Proof.
  intros E B. destruct (Z.lt_ge_cases (Z.abs z) (2 ^ 53)) as [S|L].
  - now rewrite <- E, round53_small.
  - apply round53_large in L. rewrite E in L. lia.
Qed.

Lemma stride_walk_final_reached t strides cs rate :
  stride_reached (Some t) (fst (stride_walk (Some t) strides cs rate)) = true ->
  exists c, In c (cumulative_strides cs strides) /\ stride_reached (Some t) c = true.
Proof.
  revert cs rate. induction strides as [|st strides IH]; intros cs rate; simpl.
  - intros H. exists cs. split; [now left|exact H].
  - destruct (stride_reached (Some t) cs) eqn:E.
    + intros _. exists cs. split; [now left|exact E].
    + intros H. destruct (IH _ _ H) as (c & Hc & R). exists c. split; [now right|exact R].
Qed.

Lemma in_checked (l xs : list Z) (c : Z) :
  forallb (fun x => existsb (Z.eqb x) l) xs = true -> In c xs -> In c l.
Proof.
  intros H Hc. rewrite forallb_forall in H. specialize (H c Hc).
  apply existsb_exists in H as (y & Hy & E). apply Z.eqb_eq in E. now subst.
Qed.

Lemma variant_fn_resnet_v2 v :
  exists name, forall inputs tr re nc gp os,
    variant_fn v inputs tr re nc gp os =
    resnet_v2 inputs tr re (variant_blocks v) nc gp os true name.
Proof.
  destruct v;
    [exists (Some "resnet_v2_50") | exists (Some "resnet_v2_101")
    | exists (Some "resnet_v2_152") | exists (Some "resnet_v2_200")];
    intros; reflexivity.
Qed.

Lemma variant_blocks_bottleneck v :
  Forall (fun blk => unit_fn blk = bottleneck) (variant_blocks v).
Proof. destruct v; repeat constructor. Qed.

Lemma variant_walk v os :
  In os accepted_output_strides ->
  let t := option_map truediv4 os in
  exists cs rate,
    stride_walk t (nominal_strides (variant_blocks v)) 1 1 = (cs, rate) /\
    4 * cs = output_factor os /\ cs * rate = 8 /\
    stride_reached t cs || match t with None => true | Some _ => false end = true /\
    forall d,
      fold_left reduce_dim
        (applied_strides t (nominal_strides (variant_blocks v)) 1) (reduce_dim d 4) =
      reduce_dim d (output_factor os).
Proof.
  intros H t. subst t.
  assert (G : forall l cs rate f,
            applied_strides (option_map truediv4 os) (nominal_strides (variant_blocks v)) 1 = l ->
            stride_walk (option_map truediv4 os) (nominal_strides (variant_blocks v)) 1 1 = (cs, rate) ->
            forallb (Z.ltb 0) l = true -> stride_product l = cs ->
            4 * cs = f -> output_factor os = f -> cs * rate = 8 ->
            stride_reached (option_map truediv4 os) cs ||
              match option_map truediv4 os with None => true | Some _ => false end = true ->
            exists cs' rate',
              stride_walk (option_map truediv4 os) (nominal_strides (variant_blocks v)) 1 1 =
                (cs', rate') /\
              4 * cs' = output_factor os /\ cs' * rate' = 8 /\
              stride_reached (option_map truediv4 os) cs' ||
                match option_map truediv4 os with None => true | Some _ => false end = true /\
              forall d,
                fold_left reduce_dim
                  (applied_strides (option_map truediv4 os)
                     (nominal_strides (variant_blocks v)) 1) (reduce_dim d 4) =
                reduce_dim d (output_factor os)).
  { intros l cs rate f El Ew Pos Prod Hf Hof Hr Chk. exists cs, rate.
    split; [exact Ew|]. split; [lia|]. split; [exact Hr|]. split; [exact Chk|].
    intros d. rewrite El, (fold_reduce_dim _ _ (forallb_pos _ Pos)), Prod, Hof, <- Hf.
    assert (0 < cs).
    { rewrite <- Prod. apply stride_product_pos, forallb_pos, Pos. }
    now rewrite reduce_dim_mul by lia. }
  unfold accepted_output_strides in H. simpl in H.
  destruct H as [<-|[<-|[<-|[<-|[<-|[]]]]]]; destruct v;
    (eapply G; [vm_compute; reflexivity | vm_compute; reflexivity | vm_compute; reflexivity
               | vm_compute; reflexivity | vm_compute; reflexivity | vm_compute; reflexivity
               | vm_compute; reflexivity | vm_compute; reflexivity]).
Qed.

Lemma variant_cumulative_strides v c :
  In c (cumulative_strides 1 (nominal_strides (variant_blocks v))) -> In c [1; 2; 4; 8].
Proof. apply in_checked. destruct v; vm_compute; reflexivity. Qed.

(** X8: the values of output_stride a variant constructor accepts.  On a
    rank-4 input each of resnet_v2_50/101/152/200 returns its mapping exactly
    when output_stride is None, 4, 8, 16 or 32; every other value makes it
    raise. *)
Theorem variant_accepted_output_strides
    (v : variant) (inputs : tensor) (tr : bool) (re : option bool)
    (nc : option Z) (gp : bool) (os : option Z) (s : collection) :
  rank inputs = 4%nat ->
  (exists d s', variant_fn v inputs tr re nc gp os s = (Ok (PyDict d), s')) <->
  In os accepted_output_strides.
Proof.
  intros R. destruct (rank4_shape _ R) as (b & h & w & c & Hsh).
  destruct (variant_fn_resnet_v2 v) as (name & Efn). rewrite Efn.
  destruct (resnet_v2_run inputs b h w c tr re (variant_blocks v) os true name s
              (variant_blocks_bottleneck v) Hsh)
    as [(_ & k & Hos & Hk & E)|[(_ & k & Hos & Hk & Ov & E)
       |(stem & s1 & out & cs & rate & s2 & _ & _ & W & S & E)]].
  - rewrite (E nc gp). split.
    + intros (d & s' & H). discriminate.
    + intros H. exfalso. subst os. unfold accepted_output_strides in H. simpl in H.
      destruct H as [H|[H|[H|[H|[H|[]]]]]]; try discriminate;
        injection H as <-; apply Hk; reflexivity.
  - rewrite (E nc gp). split.
    + intros (d & s' & H). discriminate.
    + intros H. exfalso. subst os. unfold accepted_output_strides in H. simpl in H.
      destruct H as [H|[H|[H|[H|[H|[]]]]]]; try discriminate;
        injection H as <-; vm_compute in Ov; discriminate.
  - rewrite (E nc gp). cbv iota. split.
    + intros (d & s' & H).
      destruct (stride_reached (option_map truediv4 os) cs ||
                match option_map truediv4 os with None => true | Some _ => false end) eqn:Chk;
        [|discriminate].
      destruct os as [k|]; [|now left]. simpl in Chk. rewrite orb_false_r in Chk.
      simpl in W. replace cs with (fst (cs, rate)) in Chk by reflexivity.
      rewrite <- W in Chk. apply stride_walk_final_reached in Chk as (c0 & Hc & Rc).
      unfold stride_reached in Rc. rewrite num_eqb_truediv4 in Rc.
      apply Z.eqb_eq in Rc. apply variant_cumulative_strides in Hc.
      symmetry in Rc.
      assert (Hk : k = 4 * c0).
      { apply (round53_inv _ _ Rc). simpl in Hc.
        destruct Hc as [<-|[<-|[<-|[<-|[]]]]]; reflexivity. }
      unfold accepted_output_strides. simpl in Hc |- *.
      destruct Hc as [<-|[<-|[<-|[<-|[]]]]]; subst k; simpl; tauto.
    + intros H. destruct (variant_walk v os H) as (cs' & rate' & W' & _ & _ & Chk & _).
      rewrite W in W'. injection W' as <- <-. rewrite Chk.
      rewrite (head_eval _ _ _ _ _ _ _ _ _ _ _ _ S). destruct nc; eexists _, _; reflexivity.
Qed.

Lemma variant_accepted_output_strides_witness :
  (exists d s', variant_fn V101 image true None (Some 21) false (Some 16) [] =
                (Ok (PyDict d), s')) <->
  In (Some 16) accepted_output_strides.
Proof.
  apply (variant_accepted_output_strides V101 image true None (Some 21) false (Some 16) []).
  reflexivity.
Defined.

(** X9: the output resolution of the variants.  For an accepted
    output_stride the tensor the head is applied to has the spatial extents
    of a rank-4 input reduced by output_stride (by 32 when it is None) and
    2048 channels.  With num_classes the mapping ends with logits and
    predictions, predictions being the softmax of logits; both have rank 4,
    with extents 1 x 1 under global pooling and the reduced extents without
    it. *)
Theorem variant_output_resolution
    (v : variant) (inputs : tensor) (b h w c : Z) (tr : bool) (re : option bool)
    (nc : option Z) (gp : bool) (os : option Z) (s : collection) :
  get_shape inputs = [b; h; w; c] ->
  In os accepted_output_strides ->
  let ca := common_layer_args tr re in
  let f := output_factor os in
  exists out s2,
    get_shape out = [b; reduce_dim h f; reduce_dim w f; 2048] /\
    variant_fn v inputs tr re nc gp os s =
      head out tr re nc gp (logits_args ca) (pred_args ca) s2 /\
    forall n, nc = Some n ->
      exists pre logits predictions,
        variant_fn v inputs tr re nc gp os s =
          (Ok (PyDict (pre ++ [("logits", logits); ("predictions", predictions)])%list),
           (pre ++ [("logits", logits); ("predictions", predictions)])%list) /\
        op_of predictions = Softmax logits "predictions" (pred_args ca) /\
        get_shape predictions = get_shape logits /\
        get_shape logits =
          (if gp then [b; 1; 1; n] else [b; reduce_dim h f; reduce_dim w f; n]).
Proof.
  intros Hsh H ca f.
  destruct (variant_fn_resnet_v2 v) as (name & Efn). rewrite Efn.
  destruct (resnet_v2_run inputs b h w c tr re (variant_blocks v) os true name s
              (variant_blocks_bottleneck v) Hsh)
    as [(_ & k & Hos & Hk & _)|[(_ & k & Hos & Hk & Ov & _)
       |(stem & s1 & out & cs & rate & s2 & _ & _ & W & S & E)]].
  - exfalso. subst os. unfold accepted_output_strides in H. simpl in H.
    destruct H as [H|[H|[H|[H|[H|[]]]]]]; try discriminate;
      injection H as <-; apply Hk; reflexivity.
  - exfalso. subst os. unfold accepted_output_strides in H. simpl in H.
    destruct H as [H|[H|[H|[H|[H|[]]]]]]; try discriminate;
      injection H as <-; vm_compute in Ov; discriminate.
  - destruct (variant_walk v os H) as (cs' & rate' & W' & _ & _ & Chk & Fold).
    cbv iota in W, S, E. rewrite W in W'. injection W' as <- <-.
    rewrite !Fold in S.
    assert (D : last_depth (units_in_order (variant_blocks v)) 64 = 2048)
      by (destruct v; vm_compute; reflexivity).
    rewrite D in S. fold f in S.
    exists out, s2. split; [exact S|]. split.
    + rewrite (E nc gp), Chk. reflexivity.
    + intros n ->. rewrite (E (Some n) gp), Chk.
      rewrite (head_eval _ _ _ _ _ _ _ _ _ _ _ _ S). cbv zeta.
      match goal with
      | |- context [(?l ++ [?a; (_, ?L); (_, ?P)])%list] =>
          exists (l ++ [a])%list, L, P;
          replace (l ++ [a; ("logits", L); ("predictions", P)])%list
            with ((l ++ [a]) ++ [("logits", L); ("predictions", P)])%list
            by (rewrite <- (app_assoc l); reflexivity)
      end.
      split; [reflexivity|]. split; [reflexivity|]. split; [reflexivity|].
      destruct gp; simpl; now rewrite ?reduce_dim_1.
Qed.

Lemma variant_output_resolution_witness :
  let ca := common_layer_args true None in
  exists out s2,
    get_shape out = [1; reduce_dim 224 16; reduce_dim 224 16; 2048] /\
    variant_fn V101 image true None (Some 21) false (Some 16) [] =
      head out true None (Some 21) false (logits_args ca) (pred_args ca) s2 /\
    forall n, Some 21 = Some n ->
      exists pre logits predictions,
        variant_fn V101 image true None (Some 21) false (Some 16) [] =
          (Ok (PyDict (pre ++ [("logits", logits); ("predictions", predictions)])%list),
           (pre ++ [("logits", logits); ("predictions", predictions)])%list) /\
        op_of predictions = Softmax logits "predictions" (pred_args ca) /\
        get_shape predictions = get_shape logits /\
        get_shape logits =
          (if false then [1; 1; 1; n] else [1; reduce_dim 224 16; reduce_dim 224 16; n]).
Proof.
  apply (variant_output_resolution V101 image 1 224 224 3 true None (Some 21) false
           (Some 16) []).
  - reflexivity.
  - simpl. tauto.
Defined.

(** ** The final block of the variants *)

(** C8: each of the four variant constructors resnet_v2_50/101/152/200 calls
    [resnet_v2] with the root block and a table of four blocks whose fourth
    block is three bottleneck units of output depth 2048.  Whenever such a
    call on a rank-4 input returns, under any output_stride, the tensor it
    hands to the head is the output of the stacking loop over that table and
    has channel depth 2048; without output_stride the call does return. *)
Theorem variant_final_depth (v : variant) :
  List.length (variant_blocks v) = 4%nat /\
  nth_error (variant_blocks v) 3 =
    Some (mk_Block "block4" bottleneck (repeat (2048, 512, 1) 3)) /\
  (exists name, forall inputs tr re nc gp os,
     variant_fn v inputs tr re nc gp os =
     resnet_v2 inputs tr re (variant_blocks v) nc gp os true name) /\
  (forall inputs tr re nc gp os s r s',
     rank inputs = 4%nat ->
     variant_fn v inputs tr re nc gp os s = (Ok r, s') ->
     let ca := common_layer_args tr re in
     exists stem t s1 out cs rate s2,
       root_block inputs os true ca (pool_args ca) s = (Ok (stem, t), s1) /\
       stack_units (units_in_order (variant_blocks v)) t (conv_args ca) stem 1 1 s1 =
         (Ok (out, cs, rate), s2) /\
       List.last (get_shape out) 0 = 2048 /\
       variant_fn v inputs tr re nc gp os s =
         head out tr re nc gp (logits_args ca) (pred_args ca) s2) /\
  (forall inputs tr re nc gp s,
     rank inputs = 4%nat ->
     exists r s', variant_fn v inputs tr re nc gp None s = (Ok r, s')) /\
  (forall net t kw s, rank net = 4%nat ->
     exists out cs rate s',
       stack_units (units_in_order (variant_blocks v)) t kw net 1 1 s =
         (Ok (out, cs, rate), s') /\
       List.last (get_shape out) 0 = 2048).
Proof.
  split; [destruct v; reflexivity|]. split; [destruct v; reflexivity|].
  split; [apply variant_fn_resnet_v2|].
  assert (D : forall c0, last_depth (units_in_order (variant_blocks v)) c0 = 2048)
    by (intros c0; destruct v; vm_compute; reflexivity).
  split; [|split].
  - intros inputs tr re nc gp os s r s' R Run ca.
    destruct (rank4_shape _ R) as (b & h & w & c & Hsh).
    destruct (variant_fn_resnet_v2 v) as (name & Efn). rewrite Efn in Run |- *.
    destruct (resnet_v2_run inputs b h w c tr re (variant_blocks v) os true name s
                (variant_blocks_bottleneck v) Hsh)
      as [(_ & k & _ & _ & E)|[(_ & k & _ & _ & _ & E)
         |(stem & s1 & out & cs & rate & s2 & Root & Stack & _ & S & E)]].
    + rewrite E in Run. discriminate.
    + rewrite E in Run. discriminate.
    + rewrite (E nc gp) in Run |- *. cbv iota in Root, Stack, S.
      destruct (_ || _); [|discriminate].
      eexists stem, _, s1, out, cs, rate, s2.
      split; [exact Root|]. split; [exact Stack|]. split; [|reflexivity].
      rewrite S, D. reflexivity.
  - intros inputs tr re nc gp s R.
    destruct (rank4_shape _ R) as (b & h & w & c & Hsh).
    destruct (variant_fn_resnet_v2 v) as (name & Efn). rewrite Efn.
    destruct (resnet_v2_run inputs b h w c tr re (variant_blocks v) None true name s
                (variant_blocks_bottleneck v) Hsh)
      as [(_ & k & Hos & _)|[(_ & k & Hos & _)
         |(stem & s1 & out & cs & rate & s2 & _ & _ & _ & S & E)]];
      [discriminate|discriminate|].
    rewrite (E nc gp). unfold stride_reached. simpl orb. cbv iota.
    rewrite (head_eval _ _ _ _ _ _ _ _ _ _ _ _ S). destruct nc; eexists _, _; reflexivity.
  - intros net t kw s R. destruct (rank4_shape _ R) as (b & h & w & c & Hsh).
    destruct (stack_units_bottleneck _ (variant_units_bottleneck v)
                t kw net b h w c 1 1 s Hsh) as (out & s' & Run & S & _).
    eexists out, _, _, s'. split; [exact Run|].
    rewrite S. cbn [List.last]. apply D.
Qed.

Lemma variant_final_depth_witness :
  List.length (variant_blocks V200) = 4%nat /\
  nth_error (variant_blocks V200) 3 =
    Some (mk_Block "block4" bottleneck (repeat (2048, 512, 1) 3)) /\
  (exists name, forall inputs tr re nc gp os,
     variant_fn V200 inputs tr re nc gp os =
     resnet_v2 inputs tr re (variant_blocks V200) nc gp os true name) /\
  (forall inputs tr re nc gp os s r s',
     rank inputs = 4%nat ->
     variant_fn V200 inputs tr re nc gp os s = (Ok r, s') ->
     let ca := common_layer_args tr re in
     exists stem t s1 out cs rate s2,
       root_block inputs os true ca (pool_args ca) s = (Ok (stem, t), s1) /\
       stack_units (units_in_order (variant_blocks V200)) t (conv_args ca) stem 1 1 s1 =
         (Ok (out, cs, rate), s2) /\
       List.last (get_shape out) 0 = 2048 /\
       variant_fn V200 inputs tr re nc gp os s =
         head out tr re nc gp (logits_args ca) (pred_args ca) s2) /\
  (forall inputs tr re nc gp s,
     rank inputs = 4%nat ->
     exists r s', variant_fn V200 inputs tr re nc gp None s = (Ok r, s')) /\
  (forall net t kw s, rank net = 4%nat ->
     exists out cs rate s',
       stack_units (units_in_order (variant_blocks V200)) t kw net 1 1 s =
         (Ok (out, cs, rate), s') /\
       List.last (get_shape out) 0 = 2048).
Proof. exact (variant_final_depth V200). Defined.
